(** * sessionlogger: a shallow embedding of the Go package and its properties

    The package has two source variants that share one file name:
    - the current one ([config.go] + the first [logger.go]): a [LoggerConfig]
      object with per-level writers, and loggers built from it;
    - the legacy one (the second [logger.go]): three global writers set up by
      [InitalizeLogger].

    Go code is modelled by explicit state passing.  Everything the package
    mutates (config objects behind pointers, the package globals, the ID
    channel, the bytes that reach the output streams, the file system) lives
    in [World]; everything the package only observes (clock, file system
    verdicts, the ID generator) lives in [Env].  A call either returns,
    panics, or blocks for ever. *)

From Stdlib Require Import ZArith String List Ascii Bool Lia.
From stdpp Require Import base option gmap strings list.

Open Scope string_scope.
Open Scope Z_scope.

(** ** Values of the Go runtime and standard library *)

(** The line feed, as Go's ["\n"]. *)
Definition nl : string := String (ascii_of_nat 10) EmptyString.

(** Go's [error] values met in this package; a nil error is [None] of
    [option error]. *)
Inductive error :=
  | ErrAlreadyInitalized
  | ErrShortWrite
  | PathError (op path : string).

(** [err.Error()] on a non-nil error. *)
Definition Error (e : error) : string :=
  match e with
  | ErrAlreadyInitalized => "Logger system was already initialized."
  | ErrShortWrite => "short write"
  | PathError op path => op +:+ " " +:+ path +:+ ": failed"
  end.

(** What a panic carries: the string given to [panic(...)], or one of the two
    run-time errors this code can raise. *)
Inductive panic_value :=
  | panic_string (msg : string)
  | index_out_of_range (i len : Z)
  | nil_dereference.

(** The streams bytes can really reach. *)
Inductive stream :=
  | os_Stdout
  | os_Stderr
  | os_File (path : string).

(** Non-nil [io.Writer] values: a stream, [ioutil.Discard], or the
    [*multiWriter] built by [io.MultiWriter].  A nil [io.Writer] is [None] of
    [option io_Writer]. *)
#[warnings="-register-all"]
Inductive io_Writer :=
  | Stream (s : stream)
  | Discard
  | multiWriter (writers : list io_Writer).

(** [io.MultiWriter(writers...)]: copies its arguments into a fresh slice,
    splicing in the children of arguments that are themselves multi-writers. *)
Definition MultiWriter (writers : list io_Writer) : io_Writer :=
  multiWriter
    (flat_map (fun w => match w with
                        | multiWriter ws => ws
                        | _ => [w]
                        end) writers).

(** A Go array [[3]T]: exactly three cells, indexed by an [int]. *)
Record array3 (A : Type) := Array3 { at0 : A; at1 : A; at2 : A }.
Arguments Array3 {A} _ _ _.
Arguments at0 {A} _.
Arguments at1 {A} _.
Arguments at2 {A} _.

Definition array3_get {A} (a : array3 A) (i : Z) : option A :=
  if i =? 0 then Some (at0 a)
  else if i =? 1 then Some (at1 a)
  else if i =? 2 then Some (at2 a)
  else None.

Definition array3_set {A} (a : array3 A) (i : Z) (x : A) : option (array3 A) :=
  if i =? 0 then Some (Array3 x (at1 a) (at2 a))
  else if i =? 1 then Some (Array3 (at0 a) x (at2 a))
  else if i =? 2 then Some (Array3 (at0 a) (at1 a) x)
  else None.

(** ** config.go: levels and the config object *)

(** [type logLevel int], with [Info], [Warn], [Err] numbered by [iota]. *)
Definition logLevel := Z.
Definition Info : logLevel := 0.
Definition Warn : logLevel := 1.
Definition Err : logLevel := 2.

Record LoggerConfig := mkLoggerConfig {
  Disabled : array3 bool;
  Writers : array3 (option io_Writer)
}.

(** The zero value [LoggerConfig{}] (also [&Config{}]). *)
Definition zero_config : LoggerConfig :=
  mkLoggerConfig (Array3 false false false) (Array3 None None None).

(** [var defaultWriters = []io.Writer{os.Stdout, os.Stdout, os.Stderr}]. *)
Definition defaultWriters : list io_Writer :=
  [Stream os_Stdout; Stream os_Stdout; Stream os_Stderr].

(** ** logger.go: the logger objects *)

(** [log.Ldate|log.Ltime|log.Lshortfile]. *)
Definition Ldate : Z := 1.
Definition Ltime : Z := 2.
Definition Lshortfile : Z := 16.

(** A [*log.Logger] as [log.New(out, prefix, flag)] makes it. *)
Record log_Logger := log_New {
  lout : io_Writer;
  lprefix : string;
  lflag : Z
}.

Record Logger := mkLogger {
  I : log_Logger;
  W : log_Logger;
  E : log_Logger;
  ID : string
}.

(** ** The world the package runs in *)

Definition loc := positive.

(** Wall-clock fields used by the file name layout. *)
Record Time := mkTime {
  month : nat; day : nat; hour : nat; minute : nat; second : nat
}.

(** What the package observes but does not control. *)
Record Env := mkEnv {
  (** the tokens [idsource.MustGenerate()] yields, in generation order *)
  idsource : nat -> string;
  (** [time.Now().UTC()] *)
  now : Time;
  (** date, time and file:line header the [log] package puts on a line *)
  header : string;
  (** streams whose [Write] reports an error *)
  broken : stream -> bool;
  (** verdicts of [os.MkdirAll] and [os.Create] *)
  MkdirAll_fails : string -> bool;
  Create_fails : string -> bool
}.

(** What the package mutates. *)
Record World := mkWorld {
  (** config objects, reached through [*LoggerConfig] pointers *)
  heap : gmap loc LoggerConfig;
  (** [var logIDService <-chan string]: [None] is the nil channel, [Some n]
      a running service that has handed out [n] tokens *)
  logIDService : option nat;
  (** every chunk written to a real stream, oldest first *)
  out : list (stream * string);
  (** directories and files made so far *)
  created : list string;
  (** legacy globals *)
  infoLog : option io_Writer;
  warnLog : option io_Writer;
  errorLog : option io_Writer;
  loggerInitted : bool
}.

Definition set_heap (h : gmap loc LoggerConfig) (w : World) : World :=
  mkWorld h (logIDService w) (out w) (created w)
          (infoLog w) (warnLog w) (errorLog w) (loggerInitted w).

Definition set_logIDService (c : option nat) (w : World) : World :=
  mkWorld (heap w) c (out w) (created w)
          (infoLog w) (warnLog w) (errorLog w) (loggerInitted w).

Definition set_out (o : list (stream * string)) (w : World) : World :=
  mkWorld (heap w) (logIDService w) o (created w)
          (infoLog w) (warnLog w) (errorLog w) (loggerInitted w).

Definition set_created (c : list string) (w : World) : World :=
  mkWorld (heap w) (logIDService w) (out w) c
          (infoLog w) (warnLog w) (errorLog w) (loggerInitted w).

Definition set_logs (i wn e : option io_Writer) (w : World) : World :=
  mkWorld (heap w) (logIDService w) (out w) (created w)
          i wn e (loggerInitted w).

Definition set_loggerInitted (b : bool) (w : World) : World :=
  mkWorld (heap w) (logIDService w) (out w) (created w)
          (infoLog w) (warnLog w) (errorLog w) b.

(** ** The monad of Go calls *)

Inductive outcome (A : Type) :=
  | Ret (a : A)
  | Panics (p : panic_value)
  | Blocks.
Arguments Ret {A} _.
Arguments Panics {A} _.
Arguments Blocks {A}.

Definition M (A : Type) : Type := Env -> World -> outcome A * World.

#[global] Instance M_ret : MRet M := fun A a _ w => (Ret a, w).

#[global] Instance M_bind : MBind M := fun A B f m env w =>
  match m env w with
  | (Ret a, w') => f a env w'
  | (Panics p, w') => (Panics p, w')
  | (Blocks, w') => (Blocks, w')
  end.

Definition panic {A} (p : panic_value) : M A := fun _ w => (Panics p, w).
Definition get_world : M World := fun _ w => (Ret w, w).
Definition modify (f : World -> World) : M unit := fun _ w => (Ret tt, f w).
Definition ask : M Env := fun env w => (Ret env, w).

(** Lift an indexing result: [None] is Go's run-time index panic. *)
Definition checked {A} (i : Z) (len : Z) (o : option A) : M A :=
  match o with
  | Some a => mret a
  | None => panic (index_out_of_range i len)
  end.

(** [*lc]: a pointer that holds no config behaves as nil. *)
Definition deref (lc : loc) : M LoggerConfig :=
  w ← get_world;
  match heap w !! lc with
  | Some cfg => mret cfg
  | None => panic nil_dereference
  end.

Definition store (lc : loc) (cfg : LoggerConfig) : M unit :=
  modify (fun w => set_heap (<[lc := cfg]> (heap w)) w).

(** Go's [len(p)]. *)
Definition len (p : string) : Z := Z.of_nat (String.length p).

(** ** Writing to an [io.Writer] *)

(** [w.Write(p)] returns the byte count and an error.  A healthy stream takes
    the whole chunk; a broken one takes nothing and reports an error;
    [ioutil.Discard] reports success and keeps nothing; a multi-writer
    offers the chunk to its children in order and stops at the first error. *)
Fixpoint Write (wr : io_Writer) (p : string) : M (Z * option error) :=
  match wr with
  | Stream s => fun env w =>
      if broken env s then (Ret (0, Some (PathError "write" "stream")), w)
      else (Ret (len p, None), set_out (out w ++ [(s, p)]) w)
  | Discard => mret (len p, None)
  | multiWriter ws =>
      (fix each (ws : list io_Writer) : M (Z * option error) :=
         match ws with
         | [] => mret (len p, None)
         | wr' :: rest =>
             r ← Write wr' p;
             match r with
             | (n, Some e) => mret (n, Some e)
             | (n, None) =>
                 if n =? len p then each rest
                 else mret (n, Some ErrShortWrite)
             end
         end) ws
  end.

(** [l.Println(v)]: one [Write] of prefix, header, the text and a line feed;
    the error of the write is dropped, as [Println] has no result. *)
Definition Println (l : log_Logger) (v : string) : M unit :=
  env ← ask;
  _ ← Write (lout l) (lprefix l +:+ header env +:+ v +:+ nl);
  mret tt.

(** ** config.go: the methods of [*LoggerConfig] *)

Module LoggerConfig.

Definition out_of_range_msg : string :=
  "Log level out of range. Use the constants dumdum.".

(** [func (lc *LoggerConfig) Disable(l logLevel) *LoggerConfig] *)
Definition Disable (lc : loc) (l : logLevel) : M loc :=
  if (l <? 0) || (l >? 3) then panic (panic_string out_of_range_msg)
  else
    cfg ← deref lc;
    d ← checked l 3 (array3_set (Disabled cfg) l true);
    _ ← store lc (mkLoggerConfig d (Writers cfg));
    mret lc.

(** [func (lc *LoggerConfig) Writer(l logLevel, w ...io.Writer) *LoggerConfig] *)
Definition Writer (lc : loc) (l : logLevel) (w : list io_Writer) : M loc :=
  if (l <? 0) || (l >? 3) then panic (panic_string out_of_range_msg)
  else
    cfg ← deref lc;
    ws ← checked l 3 (array3_set (Writers cfg) l (Some (MultiWriter w)));
    _ ← store lc (mkLoggerConfig (Disabled cfg) ws);
    mret lc.

(** [func (lc *LoggerConfig) GetWriter(l logLevel) io.Writer] *)
Definition GetWriter (lc : loc) (l : logLevel) : M io_Writer :=
  if (l <? 0) || (l >? 3) then mret (Stream os_Stdout)
  else
    cfg ← deref lc;
    disabled ← checked l 3 (array3_get (Disabled cfg) l);
    if (disabled : bool) then mret Discard
    else
      wr ← checked l 3 (array3_get (Writers cfg) l);
      match wr with
      | None => checked l 3 (defaultWriters !! Z.to_nat l)
      | Some x => mret x
      end.

End LoggerConfig.

(** What [GetWriter] computes from the config object on a valid level. *)
Definition effective (cfg : LoggerConfig) (l : logLevel) : option io_Writer :=
  match array3_get (Disabled cfg) l with
  | Some true => Some Discard
  | Some false =>
      match array3_get (Writers cfg) l with
      | Some (Some x) => Some x
      | Some None => defaultWriters !! Z.to_nat l
      | None => None
      end
  | None => None
  end.

(** ** logger.go (current variant) *)

(** [<-logIDService]: a receive on the nil channel blocks for ever; on the
    running service it yields the next token. *)
Definition recv_logIDService : M string :=
  fun env w =>
    match logIDService w with
    | None => (Blocks, w)
    | Some n => (Ret (idsource env n), set_logIDService (Some (S n)) w)
    end.

(** The goroutine that makes the channel and feeds it for ever.  Scheduling
    is not modelled: once started, the goroutine is taken to have published
    the channel before the next call of the package runs. *)
Definition go_idservice : M unit :=
  modify (set_logIDService (Some 0%nat)).

(** [func init()] *)
Definition init : M unit := go_idservice.

(** [var DefaultConfig = &Config{}]: the object sits at a fixed address. *)
Definition DefaultConfig : loc := 1%positive.

(** Two decimal digits, as the layout verbs [01], [02], [15], [04], [05]. *)
Definition digit (d : nat) : string :=
  String (ascii_of_nat (48 + d)) EmptyString.

Definition pad2 (n : nat) : string :=
  digit ((n / 10) mod 10) +:+ digit (n mod 10).

(** [t.Format("m01-d02-t150405")] *)
Definition Format_log_name (t : Time) : string :=
  "m" +:+ pad2 (month t) +:+ "-d" +:+ pad2 (day t) +:+ "-t"
      +:+ pad2 (hour t) +:+ pad2 (minute t) +:+ pad2 (second t).

(** [os.MkdirAll(path, 0775)] *)
Definition os_MkdirAll (path : string) : M (option error) :=
  fun env w =>
    if MkdirAll_fails env path then (Ret (Some (PathError "mkdir" path)), w)
    else (Ret None, set_created (created w ++ [path]) w).

(** [os.Create(name)]: either the new file or the error. *)
Definition os_Create (name : string) : M (stream + error) :=
  fun env w =>
    if Create_fails env name then (Ret (inr (PathError "open" name)), w)
    else (Ret (inl (os_File name)), set_created (created w ++ [name]) w).

(** [func CreateLogFile(logdir string)], returning the file and an error *)
Definition CreateLogFile (logdir : string) : M (option stream * option error) :=
  err ← os_MkdirAll logdir;
  match err with
  | Some e => mret (None, Some e)
  | None =>
      env ← ask;
      r ← os_Create (logdir +:+ "/" +:+ Format_log_name (now env) +:+ ".log");
      match r with
      | inr e => mret (None, Some e)
      | inl f => mret (Some f, None)
      end
  end.

(** [func MustCreateLogFile(logdir string) *os.File] *)
Definition MustCreateLogFile (logdir : string) : M (option stream) :=
  r ← CreateLogFile logdir;
  match r with
  | (_, Some e) =>
      panic (panic_string
               ("Log file creation failed. *shrug* Guess I'll die." +:+ nl
                  +:+ Error e))
  | (f, None) => mret f
  end.

(** The methods of [*Config]; the receiver type is the config object of
    [config.go]. *)
Module Config.

Definition flags : Z := Z.lor (Z.lor Ldate Ltime) Lshortfile.

(** [func (lc *Config) newLogger(prefix string) *Logger] *)
Definition newLogger (lc : loc) (prefix : string) : M Logger :=
  i ← LoggerConfig.GetWriter lc Info;
  w ← LoggerConfig.GetWriter lc Warn;
  e ← LoggerConfig.GetWriter lc Err;
  mret (mkLogger (log_New i ("INFO" +:+ prefix +:+ ": ") flags)
                 (log_New w ("WARN" +:+ prefix +:+ ": ") flags)
                 (log_New e (" ERR" +:+ prefix +:+ ": ") flags)
                 "").

(** [func (lc *Config) NewMasterLogger() *Logger] *)
Definition NewMasterLogger (lc : loc) : M Logger :=
  log ← newLogger lc "";
  mret (mkLogger (I log) (W log) (E log) "MASTER").

(** [func (lc *Config) NewSessionLogger(endpoint string) *Logger] *)
Definition NewSessionLogger (lc : loc) (endpoint : string) : M Logger :=
  id ← recv_logIDService;
  log ← newLogger lc ("@" +:+ endpoint +:+ ":" +:+ id);
  let log := mkLogger (I log) (W log) (E log) id in
  _ ← Println (I log) "";
  mret log.

End Config.

(** [func NewMasterLogger() *Logger] *)
Definition NewMasterLogger : M Logger := Config.NewMasterLogger DefaultConfig.

(** [func NewSessionLogger(endpoint string) *Logger] *)
Definition NewSessionLogger (endpoint : string) : M Logger :=
  Config.NewSessionLogger DefaultConfig endpoint.

(** ** logger.go (legacy variant): process-wide writers *)

Module Legacy.

(** [func InitalizeLogger(logdir string) error]; the error it returns on a
    repeated call is the package's [ErrAlreadyInitalized]. *)
Definition InitalizeLogger (logdir : string) : M (option error) :=
  w ← get_world;
  if loggerInitted w then mret (Some ErrAlreadyInitalized)
  else
    let start : M (option error) :=
      _ ← go_idservice;
      _ ← modify (set_loggerInitted true);
      mret None in
    if String.eqb logdir "" then
      _ ← modify (set_logs (Some (Stream os_Stdout))
                           (Some (Stream os_Stdout))
                           (Some (Stream os_Stderr)));
      start
    else
      err ← os_MkdirAll logdir;
      match err with
      | Some e => mret (Some e)
      | None =>
          env ← ask;
          r ← os_Create (logdir +:+ "/" +:+ Format_log_name (now env)
                                +:+ ".log");
          match r with
          | inr e => mret (Some e)
          | inl f =>
              _ ← modify (set_logs
                            (Some (MultiWriter [Stream f; Stream os_Stdout]))
                            (Some (MultiWriter [Stream f; Stream os_Stdout]))
                            (Some (MultiWriter [Stream f; Stream os_Stderr])));
              start
          end
      end.

(** [func MustInitalizeLogger(logdir string)]: the argument of [panic] is
    built by calling [Error()] on whatever [InitalizeLogger] returned, and
    a method call on the nil interface is a run-time panic. *)
Definition MustInitalizeLogger (logdir : string) : M unit :=
  err ← InitalizeLogger logdir;
  match err with
  | None => panic nil_dereference
  | Some e =>
      panic (panic_string
               ("Logger initialization failed. *shrug* Guess I'll die." +:+ nl
                  +:+ Error e))
  end.

End Legacy.

(** ** Calls a client can make on configs after a logger exists *)

Inductive mutation :=
  | call_Disable (lc : loc) (l : logLevel)
  | call_Writer (lc : loc) (l : logLevel) (ws : list io_Writer).

Definition mutate (m : mutation) : M loc :=
  match m with
  | call_Disable lc l => LoggerConfig.Disable lc l
  | call_Writer lc l ws => LoggerConfig.Writer lc l ws
  end.

(** The world after a series of such calls, each one either returning or
    panicking and being recovered by the caller. *)
Definition after_mutations (ms : list mutation) (env : Env) (w : World) : World :=
  fold_left (fun w m => (mutate m env w).2) ms w.

(** The three [*log.Logger] channels of a logger. *)
Definition channels (L : Logger) : list log_Logger := [I L; W L; E L].

(** Structural induction on writers, through the list of children. *)
Section io_Writer_induction.
Variable P : io_Writer -> Prop.
Hypothesis P_Stream : forall s, P (Stream s).
Hypothesis P_Discard : P Discard.
Hypothesis P_multiWriter : forall ws, Forall P ws -> P (multiWriter ws).

Fixpoint io_Writer_nested_ind (wr : io_Writer) : P wr :=
  match wr with
  | Stream s => P_Stream s
  | Discard => P_Discard
  | multiWriter ws =>
      P_multiWriter ws
        ((fix all (ws : list io_Writer) : Forall P ws :=
            match ws with
            | [] => @List.Forall_nil _ P
            | x :: rest => @List.Forall_cons _ P x rest (io_Writer_nested_ind x) (all rest)
            end) ws)
  end.
End io_Writer_induction.

(** The children loop of a multi-writer, named. *)
Definition Write_each (p : string) : list io_Writer -> M (Z * option error) :=
  fix each (ws : list io_Writer) : M (Z * option error) :=
    match ws with
    | [] => mret (len p, None)
    | wr' :: rest =>
        r ← Write wr' p;
        match r with
        | (n, Some e) => mret (n, Some e)
        | (n, None) =>
            if n =? len p then each rest
            else mret (n, Some ErrShortWrite)
        end
    end.

(** A write returns, and its result and the trace it leaves depend on the
    world through the trace alone; nothing but the trace changes. *)
Definition Write_framed (wr : io_Writer) : Prop :=
  forall p env w,
  exists r o,
    Write wr p env w = (Ret r, set_out o w) /\
    forall w', out w' = out w -> Write wr p env w' = (Ret r, set_out o w').

(** ** A concrete machine to run the code on *)

Definition env0 : Env :=
  mkEnv (fun n => "tok" +:+ digit n)
        (mkTime 3 15 14 25 30)
        "2022/03/15 14:25:30 main.go:10: "
        (fun _ => false) (fun _ => false) (fun _ => false).

(** The process right after the package variables are set up. *)
Definition world0 : World :=
  mkWorld {[ DefaultConfig := zero_config ]} None [] [] None None None false.

(** The process once [init] has run. *)
Definition world1 : World := (init env0 world0).2.

(** The master logger of the default config on [world0]. *)
Definition master0 : Logger :=
  mkLogger (log_New (Stream os_Stdout) "INFO: " 19)
           (log_New (Stream os_Stdout) "WARN: " 19)
           (log_New (Stream os_Stderr) " ERR: " 19)
           "".

(** ** logger.go (legacy variant): loggers over the process-wide writers *)

(** A [*log.Logger] whose writer may still be nil: [log.New] stores whatever
    [io.Writer] it is given, and the legacy globals are nil until
    [InitalizeLogger] has succeeded. *)
Record raw_log_Logger := raw_log_New {
  rout : option io_Writer;
  rprefix : string;
  rflag : Z
}.

(** [l.Println(v)] on such a logger: the call of [Write] on a nil writer is
    a run-time panic. *)
Definition raw_Println (l : raw_log_Logger) (v : string) : M unit :=
  match rout l with
  | None => panic nil_dereference
  | Some wr => Println (log_New wr (rprefix l) (rflag l)) v
  end.

Module LegacyLogger.

(** The legacy [Logger] has the three channels and no [ID]. *)
Record Logger := mkLogger {
  I : raw_log_Logger;
  W : raw_log_Logger;
  E : raw_log_Logger
}.

(** [func newLogger(prefix string) *Logger] *)
Definition newLogger (prefix : string) : M Logger :=
  w ← get_world;
  mret (mkLogger
          (raw_log_New (infoLog w) ("INFO" +:+ prefix +:+ ": ") Config.flags)
          (raw_log_New (warnLog w) ("WARN" +:+ prefix +:+ ": ") Config.flags)
          (raw_log_New (errorLog w) (" ERR" +:+ prefix +:+ ": ") Config.flags)).

(** [func NewMasterLogger() *Logger] *)
Definition NewMasterLogger : M Logger := newLogger "".

(** [func NewSessionLogger(endpoint string) *Logger] *)
Definition NewSessionLogger (endpoint : string) : M Logger :=
  id ← recv_logIDService;
  newLogger ("@" +:+ endpoint +:+ ":" +:+ id).

End LegacyLogger.

(** ** Vocabulary for the properties of the whole package *)

(** The object and the level a mutator call is aimed at. *)
Definition target (m : mutation) : loc * logLevel :=
  match m with
  | call_Disable lc l => (lc, l)
  | call_Writer lc l _ => (lc, l)
  end.

(** The channel of a logger that serves a level, and the tag [newLogger]
    puts in front of its prefix. *)
Definition channel (L : Logger) (l : logLevel) : option log_Logger :=
  if l =? Info then Some (I L)
  else if l =? Warn then Some (W L)
  else if l =? Err then Some (E L)
  else None.

Definition level_tag (l : logLevel) : string :=
  if l =? Info then "INFO" else if l =? Warn then "WARN" else " ERR".

(** The trace entries one chunk leaves on a list of streams. *)
Definition chunk_on (ss : list stream) (p : string) : list (stream * string) :=
  map (fun s => (s, p)) ss.

(** The path [CreateLogFile] and [InitalizeLogger] build for the log file. *)
Definition log_path (logdir : string) (env : Env) : string :=
  logdir +:+ "/" +:+ Format_log_name (now env) +:+ ".log".

(** Machines on which the file system refuses, or one stream is broken. *)
Definition env_no_mkdir : Env :=
  mkEnv (idsource env0) (now env0) (header env0)
        (fun _ => false) (fun _ => true) (fun _ => false).

Definition env_no_create : Env :=
  mkEnv (idsource env0) (now env0) (header env0)
        (fun _ => false) (fun _ => false) (fun _ => true).

Definition env_broken_files : Env :=
  mkEnv (idsource env0) (now env0) (header env0)
        (fun s => match s with os_File _ => true | _ => false end)
        (fun _ => false) (fun _ => false).

(** What a config object says about one level: the flag and the writer
    cell, or nothing when the pointer holds no config. *)
Definition cell (w : World) (lc : loc) (l : logLevel)
  : option (option bool * option (option io_Writer)) :=
  match heap w !! lc with
  | Some c => Some (array3_get (Disabled c) l, array3_get (Writers c) l)
  | None => None
  end.

(** * Properties *)

(** ** Running the monad *)

Lemma bind_Ret {A B} (m : M A) (k : A -> M B) env w a w' :
  m env w = (Ret a, w') -> (m ≫= k) env w = k a env w'.
Proof. intros H. unfold mbind, M_bind. now rewrite H. Qed.

Lemma bind_Panics {A B} (m : M A) (k : A -> M B) env w p w' :
  m env w = (Panics p, w') -> (m ≫= k) env w = (Panics p, w').
Proof. intros H. unfold mbind, M_bind. now rewrite H. Qed.

Lemma deref_Some lc cfg env w :
  heap w !! lc = Some cfg -> deref lc env w = (Ret cfg, w).
Proof.
  intros H. unfold deref, get_world, mbind, M_bind. now rewrite H.
Qed.

Lemma deref_None lc env w :
  heap w !! lc = None -> deref lc env w = (Panics nil_dereference, w).
Proof.
  intros H. unfold deref, get_world, mbind, M_bind. now rewrite H.
Qed.

(** The three levels, one by one. *)
Lemma valid_level_cases (l : logLevel) :
  0 <= l <= 2 -> l = Info \/ l = Warn \/ l = Err.
Proof. unfold Info, Warn, Err. lia. Qed.

Ltac each_level l H :=
  destruct (valid_level_cases l H) as [-> | [-> | ->]].

(** ** Levels the guard lets through or stops *)

Lemma guard_outside (l : logLevel) :
  l < 0 \/ 3 < l -> (l <? 0) || (l >? 3) = true.
Proof.
  intros [H | H]; apply orb_true_iff; [left | right]; lia.
Qed.

Lemma guard_inside (l : logLevel) :
  0 <= l <= 3 -> (l <? 0) || (l >? 3) = false.
Proof. intros H. apply orb_false_iff. lia. Qed.

(** Outside [0..3] the read path answers with standard output ... *)
Lemma GetWriter_outside_guard lc l env w :
  l < 0 \/ 3 < l ->
  LoggerConfig.GetWriter lc l env w = (Ret (Stream os_Stdout), w).
Proof.
  intros H. unfold LoggerConfig.GetWriter. now rewrite guard_outside.
Qed.

(** ... and the two mutators panic with their message, touching nothing. *)
Lemma Disable_outside_guard lc l env w :
  l < 0 \/ 3 < l ->
  LoggerConfig.Disable lc l env w
  = (Panics (panic_string LoggerConfig.out_of_range_msg), w).
Proof.
  intros H. unfold LoggerConfig.Disable. now rewrite guard_outside.
Qed.

Lemma Writer_outside_guard lc l ws env w :
  l < 0 \/ 3 < l ->
  LoggerConfig.Writer lc l ws env w
  = (Panics (panic_string LoggerConfig.out_of_range_msg), w).
Proof.
  intros H. unfold LoggerConfig.Writer. now rewrite guard_outside.
Qed.

(** Level 3 passes the guard of all three methods and then indexes a
    three-cell array. *)
Lemma GetWriter_3 lc cfg env w :
  heap w !! lc = Some cfg ->
  LoggerConfig.GetWriter lc 3 env w = (Panics (index_out_of_range 3 3), w).
Proof.
  intros H. unfold LoggerConfig.GetWriter. rewrite guard_inside by lia.
  now rewrite (bind_Ret _ _ _ _ _ _ (deref_Some _ _ env _ H)).
Qed.

Lemma Disable_3 lc cfg env w :
  heap w !! lc = Some cfg ->
  LoggerConfig.Disable lc 3 env w = (Panics (index_out_of_range 3 3), w).
Proof.
  intros H. unfold LoggerConfig.Disable. rewrite guard_inside by lia.
  now rewrite (bind_Ret _ _ _ _ _ _ (deref_Some _ _ env _ H)).
Qed.

Lemma Writer_3 lc cfg ws env w :
  heap w !! lc = Some cfg ->
  LoggerConfig.Writer lc 3 ws env w = (Panics (index_out_of_range 3 3), w).
Proof.
  intros H. unfold LoggerConfig.Writer. rewrite guard_inside by lia.
  now rewrite (bind_Ret _ _ _ _ _ _ (deref_Some _ _ env _ H)).
Qed.

(** On a live config every level outside [Info..Err] makes both mutators
    panic, one way or the other, and leaves the world as it was. *)
Lemma mutators_reject_invalid_levels lc cfg l ws env w :
  heap w !! lc = Some cfg -> ~ (0 <= l <= 2) ->
  exists p q,
    LoggerConfig.Disable lc l env w = (Panics p, w) /\
    LoggerConfig.Writer lc l ws env w = (Panics q, w).
Proof.
  intros H Hl. destruct (Z.eq_dec l 3) as [-> | Hne].
  - do 2 eexists. split; [eapply Disable_3 | eapply Writer_3]; eassumption.
  - do 2 eexists.
    split; [apply Disable_outside_guard | apply Writer_outside_guard]; lia.
Qed.

(** ** The read path on valid levels *)

Lemma GetWriter_valid lc cfg l env w :
  heap w !! lc = Some cfg -> 0 <= l <= 2 ->
  exists x, effective cfg l = Some x /\
            LoggerConfig.GetWriter lc l env w = (Ret x, w).
Proof.
  intros H Hl. unfold LoggerConfig.GetWriter, effective.
  rewrite guard_inside by lia.
  rewrite (bind_Ret _ _ _ _ _ _ (deref_Some _ _ env _ H)).
  destruct cfg as [[d0 d1 d2] [w0 w1 w2]].
  each_level l Hl; cbn;
    repeat match goal with
           | |- context [if ?b then _ else _] => destruct b; cbn
           | |- context [match ?o with Some _ => _ | None => _ end] =>
               destruct o; cbn
           end; eauto.
Qed.

(** ** Arrays of three cells *)

Lemma array3_set_valid {A} (a : array3 A) (i : Z) (x : A) :
  0 <= i <= 2 -> exists a', array3_set a i x = Some a'.
Proof.
  intros H. each_level i H; cbn; eauto.
Qed.

Lemma array3_get_set_eq {A} (a a' : array3 A) (i : Z) (x : A) :
  array3_set a i x = Some a' -> array3_get a' i = Some x.
Proof.
  unfold array3_set, array3_get.
  destruct (i =? 0); [ now intros [= <-] |].
  destruct (i =? 1); [ now intros [= <-] |].
  destruct (i =? 2); [ now intros [= <-] | discriminate ].
Qed.

Lemma array3_get_set_ne {A} (a a' : array3 A) (i j : Z) (x : A) :
  array3_set a i x = Some a' -> i <> j -> array3_get a' j = array3_get a j.
Proof.
  unfold array3_set, array3_get. intros H Hne.
  destruct (Z.eqb_spec i 0), (Z.eqb_spec i 1), (Z.eqb_spec i 2);
    try lia; try discriminate;
    injection H as <-; cbn;
    destruct (Z.eqb_spec j 0), (Z.eqb_spec j 1), (Z.eqb_spec j 2);
    try lia; reflexivity.
Qed.

(** ** The mutators on valid levels *)

Lemma Disable_valid lc cfg l env w :
  heap w !! lc = Some cfg -> 0 <= l <= 2 ->
  exists d,
    array3_set (Disabled cfg) l true = Some d /\
    LoggerConfig.Disable lc l env w
    = (Ret lc, set_heap (<[lc := mkLoggerConfig d (Writers cfg)]> (heap w)) w).
Proof.
  intros H Hl. destruct (array3_set_valid (Disabled cfg) l true Hl) as [d Hd].
  exists d. split; [exact Hd |].
  unfold LoggerConfig.Disable. rewrite guard_inside by lia.
  rewrite (bind_Ret _ _ _ _ _ _ (deref_Some _ _ env _ H)).
  rewrite Hd. reflexivity.
Qed.

Lemma Writer_valid lc cfg l ws env w :
  heap w !! lc = Some cfg -> 0 <= l <= 2 ->
  exists a,
    array3_set (Writers cfg) l (Some (MultiWriter ws)) = Some a /\
    LoggerConfig.Writer lc l ws env w
    = (Ret lc, set_heap (<[lc := mkLoggerConfig (Disabled cfg) a]> (heap w)) w).
Proof.
  intros H Hl.
  destruct (array3_set_valid (Writers cfg) l (Some (MultiWriter ws)) Hl)
    as [a Ha].
  exists a. split; [exact Ha |].
  unfold LoggerConfig.Writer. rewrite guard_inside by lia.
  rewrite (bind_Ret _ _ _ _ _ _ (deref_Some _ _ env _ H)).
  rewrite Ha. reflexivity.
Qed.

Lemma heap_set_heap_insert lc cfg w :
  heap (set_heap (<[lc := cfg]> (heap w)) w) !! lc = Some cfg.
Proof. cbn. apply lookup_insert_eq. Qed.

(** ** Writing to the silent sinks *)

Lemma Write_Discard p env w : Write Discard p env w = (Ret (len p, None), w).
Proof. reflexivity. Qed.

Lemma Write_empty_multiWriter p env w :
  Write (multiWriter []) p env w = (Ret (len p, None), w).
Proof. reflexivity. Qed.

(** ** Claims about the config object *)

(** C2, at the level the guard misses: on the zero-value config
    [GetWriter(3)] does not return standard output as [GetWriter(Info)] does;
    it passes the [l > 3] test and panics on the index into the three-cell
    [Disabled] array. *)
Theorem GetWriter_level_3_panics :
  LoggerConfig.GetWriter DefaultConfig Info env0 world0
  = (Ret (Stream os_Stdout), world0) /\
  LoggerConfig.GetWriter DefaultConfig 3 env0 world0
  = (Panics (index_out_of_range 3 3), world0).
Proof. split; reflexivity. Qed.

(** C3, at the level the guard misses: [Disable(3)] and [Writer(3, ...)] pass
    the [l > 3] test, so neither raises the level-out-of-range panic; each
    stops on the run-time index error instead, with the config untouched. *)
Theorem mutators_level_3_index_panic :
  LoggerConfig.Disable DefaultConfig 3 env0 world0
  = (Panics (index_out_of_range 3 3), world0) /\
  LoggerConfig.Writer DefaultConfig 3 [Stream os_Stderr] env0 world0
  = (Panics (index_out_of_range 3 3), world0) /\
  index_out_of_range 3 3 <> panic_string LoggerConfig.out_of_range_msg.
Proof. repeat split; try reflexivity. discriminate. Qed.

(** C6: on any config and any valid level, [Disable(l)] returns, and
    [GetWriter(l)] then yields the discard sink, whose every [Write] reports
    the whole chunk as taken and leaves the world, hence every stream, as it
    was. *)
Theorem Disable_then_GetWriter_discards lc cfg l env w :
  heap w !! lc = Some cfg -> 0 <= l <= 2 ->
  exists w1,
    LoggerConfig.Disable lc l env w = (Ret lc, w1) /\
    LoggerConfig.GetWriter lc l env w1 = (Ret Discard, w1) /\
    forall p env' w', Write Discard p env' w' = (Ret (len p, None), w').
Proof.
  intros H Hl. destruct (Disable_valid lc cfg l env w H Hl) as (d & Hd & Hrun).
  eexists. split; [exact Hrun |]. split; [| intros; apply Write_Discard].
  pose proof (heap_set_heap_insert lc (mkLoggerConfig d (Writers cfg)) w) as Hh.
  destruct (GetWriter_valid lc _ l env _ Hh Hl) as (x & Hx & Hget).
  rewrite Hget. unfold effective in Hx. cbn [Disabled] in Hx.
  rewrite (array3_get_set_eq _ _ _ _ Hd) in Hx. now injection Hx as <-.
Qed.

Lemma Disable_then_GetWriter_discards_witness :
  exists w1,
    LoggerConfig.Disable DefaultConfig Warn env0 world0 = (Ret DefaultConfig, w1) /\
    LoggerConfig.GetWriter DefaultConfig Warn env0 w1 = (Ret Discard, w1) /\
    forall p env' w', Write Discard p env' w' = (Ret (len p, None), w').
Proof.
  apply (Disable_then_GetWriter_discards DefaultConfig zero_config Warn
           env0 world0).
  - reflexivity.
  - unfold Warn. lia.
Defined.

(** C7: on a valid level with no writer set and not disabled, [GetWriter]
    yields the built-in default: standard output for [Info] and [Warn],
    standard error for [Err]. *)
Theorem GetWriter_default lc cfg l env w :
  heap w !! lc = Some cfg -> 0 <= l <= 2 ->
  array3_get (Writers cfg) l = Some None ->
  array3_get (Disabled cfg) l = Some false ->
  LoggerConfig.GetWriter lc l env w
  = (Ret (Stream (if l =? Err then os_Stderr else os_Stdout)), w).
Proof.
  intros H Hl Hw Hd.
  destruct (GetWriter_valid lc cfg l env w H Hl) as (x & Hx & Hget).
  rewrite Hget. unfold effective in Hx. rewrite Hd, Hw in Hx.
  each_level l Hl; cbn in Hx; injection Hx as <-; reflexivity.
Qed.

Lemma GetWriter_default_witness :
  LoggerConfig.GetWriter DefaultConfig Err env0 world0
  = (Ret (Stream os_Stderr), world0).
Proof.
  apply (GetWriter_default DefaultConfig zero_config Err env0 world0).
  - reflexivity.
  - unfold Err. lia.
  - reflexivity.
  - reflexivity.
Defined.

(** C10 as stated fails on a disabled level: after [Writer(Info)] with no
    sinks, [GetWriter(Info)] answers with the discard sink, not with the
    empty fan-out that was installed. *)
Lemma empty_Writer_on_disabled_level :
  let w := (LoggerConfig.Disable DefaultConfig Info env0 world0).2 in
  let r := LoggerConfig.Writer DefaultConfig Info [] env0 w in
  r.1 = Ret DefaultConfig /\
  (LoggerConfig.GetWriter DefaultConfig Info env0 r.2).1 = Ret Discard /\
  Discard <> MultiWriter [].
Proof. repeat split; try reflexivity. discriminate. Qed.

(** C10, amended: on a valid level that is not disabled, [Writer(l)] with no
    sinks installs a non-nil fan-out over zero destinations; [GetWriter(l)]
    then returns that fan-out, which takes and drops every write, and not
    the level's built-in default. *)
Theorem empty_Writer_silences lc cfg l env w :
  heap w !! lc = Some cfg -> 0 <= l <= 2 ->
  array3_get (Disabled cfg) l = Some false ->
  exists w1 cfg1,
    LoggerConfig.Writer lc l [] env w = (Ret lc, w1) /\
    heap w1 !! lc = Some cfg1 /\
    array3_get (Writers cfg1) l = Some (Some (multiWriter [])) /\
    LoggerConfig.GetWriter lc l env w1 = (Ret (multiWriter []), w1) /\
    (forall p env' w',
        Write (multiWriter []) p env' w' = (Ret (len p, None), w')) /\
    defaultWriters !! Z.to_nat l <> Some (multiWriter []).
Proof.
  intros H Hl Hd. destruct (Writer_valid lc cfg l [] env w H Hl) as (a & Ha & Hrun).
  change (MultiWriter []) with (multiWriter []) in Ha.
  do 2 eexists. split; [exact Hrun |].
  split; [apply heap_set_heap_insert |].
  split; [cbn [Writers]; exact (array3_get_set_eq _ _ _ _ Ha) |].
  split; [| split; [intros; apply Write_empty_multiWriter |]].
  - pose proof (heap_set_heap_insert lc (mkLoggerConfig (Disabled cfg) a) w)
      as Hh.
    destruct (GetWriter_valid lc _ l env _ Hh Hl) as (x & Hx & Hget).
    rewrite Hget. unfold effective in Hx. cbn [Disabled Writers] in Hx.
    rewrite Hd, (array3_get_set_eq _ _ _ _ Ha) in Hx. now injection Hx as <-.
  - each_level l Hl; cbn; discriminate.
Qed.

Lemma empty_Writer_silences_witness :
  exists w1 cfg1,
    LoggerConfig.Writer DefaultConfig Info [] env0 world0
    = (Ret DefaultConfig, w1) /\
    heap w1 !! DefaultConfig = Some cfg1 /\
    array3_get (Writers cfg1) Info = Some (Some (multiWriter [])) /\
    LoggerConfig.GetWriter DefaultConfig Info env0 w1
    = (Ret (multiWriter []), w1) /\
    (forall p env' w',
        Write (multiWriter []) p env' w' = (Ret (len p, None), w')) /\
    defaultWriters !! Z.to_nat Info <> Some (multiWriter []).
Proof.
  apply (empty_Writer_silences DefaultConfig zero_config Info env0 world0).
  - reflexivity.
  - unfold Info. lia.
  - reflexivity.
Defined.

(** ** Writes only ever touch the output trace *)

Lemma Write_multiWriter ws p : Write (multiWriter ws) p = Write_each p ws.
Proof. reflexivity. Qed.

Lemma set_out_same w : set_out (out w) w = w.
Proof. now destruct w. Qed.

Lemma Write_frame wr : Write_framed wr.
Proof.
  induction wr as [s | | ws IH] using io_Writer_nested_ind; intros p env w.
  - cbn. destruct (broken env s).
    + exists (0, Some (PathError "write" "stream")). exists (out w).
      rewrite set_out_same. split; [reflexivity |].
      intros w' Hw'. rewrite <- Hw'. now rewrite set_out_same.
    + exists (len p, None). exists (out w ++ [(s, p)])%list. split; [reflexivity |].
      intros w' Hw'. now rewrite Hw'.
  - exists (len p, None). exists (out w). cbn. rewrite set_out_same.
    split; [reflexivity |]. intros w' Hw'. rewrite <- Hw'.
    now rewrite set_out_same.
  - rewrite Write_multiWriter. revert w.
    induction IH as [| x rest Hx _ IHrest]; intros w.
    + exists (len p, None). exists (out w). cbn. rewrite set_out_same.
      split; [reflexivity |]. intros w' Hw'. cbn. rewrite <- Hw'. now rewrite set_out_same.
    + destruct (Hx p env w) as ([n oe] & o & Hrun & Hfr).
      assert (Hstep : forall v, out v = out w ->
                Write_each p (x :: rest) env v
                = match oe with
                  | Some e => (Ret (n, Some e), set_out o v)
                  | None =>
                      if n =? len p then Write_each p rest env (set_out o v)
                      else (Ret (n, Some ErrShortWrite), set_out o v)
                  end).
      { intros v Hv. cbn [Write_each].
        rewrite (bind_Ret _ _ _ _ _ _ (Hfr v Hv)).
        destruct oe; [reflexivity |]. now destruct (n =? len p). }
      destruct oe as [e |].
      * exists (n, Some e). exists o. split; [now apply Hstep |].
        intros w' Hw'. now apply Hstep.
      * destruct (n =? len p) eqn:Hn.
        -- destruct (IHrest (set_out o w)) as (r & o2 & Hrest & Hfr2).
           exists r. exists o2. split.
           ++ rewrite Hstep by reflexivity. exact Hrest.
           ++ intros w' Hw'. rewrite (Hstep w' Hw').
              rewrite (Hfr2 (set_out o w') eq_refl). reflexivity.
        -- exists (n, Some ErrShortWrite). exists o. split.
           ++ rewrite Hstep by reflexivity. reflexivity.
           ++ intros w' Hw'. rewrite (Hstep w' Hw').
              reflexivity.
Qed.

(** [Println] returns and changes the trace only, as [Write] dictates. *)
Lemma Println_run l v env w :
  exists r,
    Write (lout l) (lprefix l +:+ header env +:+ v +:+ nl) env w = (Ret r.1, r.2) /\
    Println l v env w = (Ret tt, r.2).
Proof.
  destruct (Write_frame (lout l) (lprefix l +:+ header env +:+ v +:+ nl) env w)
    as (r & o & Hrun & _).
  exists (r, set_out o w). split; [exact Hrun |].
  unfold Println, ask. unfold mbind at 1, M_bind at 1.
  now rewrite (bind_Ret _ _ _ _ _ _ Hrun).
Qed.

Lemma Println_out_frame l v env w w' :
  out w' = out w ->
  out (Println l v env w').2 = out (Println l v env w).2.
Proof.
  intros Hw'.
  destruct (Write_frame (lout l) (lprefix l +:+ header env +:+ v +:+ nl) env w)
    as (r & o & Hrun & Hfr).
  unfold Println, ask. unfold mbind at 1 3, M_bind at 1 3.
  rewrite (bind_Ret _ _ _ _ _ _ Hrun), (bind_Ret _ _ _ _ _ _ (Hfr w' Hw')).
  reflexivity.
Qed.

(** ** Building loggers *)

(** On a live config, [newLogger] returns without touching the world, and
    each channel holds what [GetWriter] answers for its level. *)
Lemma newLogger_run lc cfg prefix env w :
  heap w !! lc = Some cfg ->
  exists i wn e,
    LoggerConfig.GetWriter lc Info env w = (Ret i, w) /\
    LoggerConfig.GetWriter lc Warn env w = (Ret wn, w) /\
    LoggerConfig.GetWriter lc Err env w = (Ret e, w) /\
    Config.newLogger lc prefix env w
    = (Ret (mkLogger
              (log_New i ("INFO" +:+ prefix +:+ ": ") Config.flags)
              (log_New wn ("WARN" +:+ prefix +:+ ": ") Config.flags)
              (log_New e (" ERR" +:+ prefix +:+ ": ") Config.flags)
              ""), w).
Proof.
  intros H.
  destruct (GetWriter_valid lc cfg Info env w H) as (i & _ & Hi);
    [unfold Info; lia |].
  destruct (GetWriter_valid lc cfg Warn env w H) as (wn & _ & Hw);
    [unfold Warn; lia |].
  destruct (GetWriter_valid lc cfg Err env w H) as (e & _ & He);
    [unfold Err; lia |].
  exists i, wn, e. repeat split; try assumption.
  unfold Config.newLogger.
  rewrite (bind_Ret _ _ _ _ _ _ Hi), (bind_Ret _ _ _ _ _ _ Hw),
    (bind_Ret _ _ _ _ _ _ He).
  reflexivity.
Qed.

(** A dangling receiver makes [newLogger] panic. *)
Lemma newLogger_nil lc prefix env w :
  heap w !! lc = None ->
  Config.newLogger lc prefix env w = (Panics nil_dereference, w).
Proof.
  intros H. unfold Config.newLogger, LoggerConfig.GetWriter.
  cbn [Info Z.ltb Z.gtb Z.compare orb].
  apply bind_Panics. apply bind_Panics. now apply deref_None.
Qed.

(** C8: on any config, [NewMasterLogger] returns a logger whose [ID] is
    exactly ["MASTER"] and whose line prefixes carry no identity segment, and
    the world after the call is the world before it: nothing was written to
    any sink and no token was taken from the ID service. *)
Theorem NewMasterLogger_identity lc cfg env w :
  heap w !! lc = Some cfg ->
  exists L,
    Config.NewMasterLogger lc env w = (Ret L, w) /\
    ID L = "MASTER" /\
    lprefix (I L) = "INFO: " /\
    lprefix (W L) = "WARN: " /\
    lprefix (E L) = " ERR: ".
Proof.
  intros H.
  destruct (newLogger_run lc cfg "" env w H) as (i & wn & e & _ & _ & _ & Hnew).
  eexists. split.
  - unfold Config.NewMasterLogger. rewrite (bind_Ret _ _ _ _ _ _ Hnew).
    reflexivity.
  - repeat split.
Qed.

Lemma NewMasterLogger_identity_witness :
  exists L,
    Config.NewMasterLogger DefaultConfig env0 world1 = (Ret L, world1) /\
    ID L = "MASTER" /\
    lprefix (I L) = "INFO: " /\
    lprefix (W L) = "WARN: " /\
    lprefix (E L) = " ERR: ".
Proof.
  apply (NewMasterLogger_identity DefaultConfig zero_config env0 world1).
  reflexivity.
Defined.

(** C1 as stated fails: with endpoint ["foo"] and next token ["tok0"], the
    logger's [ID] is the bare token, not ["@foo:tok0"]. *)
Lemma NewSessionLogger_ID_is_bare_token :
  exists L,
    (Config.NewSessionLogger DefaultConfig "foo" env0 world1).1 = Ret L /\
    idsource env0 0%nat = "tok0" /\
    ID L = "tok0" /\
    ID L <> "@foo:tok0".
Proof.
  eexists. split; [lazy; reflexivity |]. repeat split. discriminate.
Qed.

(** C1, amended: with the ID service running, [NewSessionLogger(e)] returns a
    logger whose [ID] is the token [id] received during the call; the composed
    string [@e:id] is the identity segment of the three line prefixes; the
    channels hold what [GetWriter] answers; and the only effect besides taking
    the token is one [Write] on the Info channel's sink of a line with an
    empty message. *)
Theorem NewSessionLogger_run lc cfg endpoint n env w :
  heap w !! lc = Some cfg ->
  logIDService w = Some n ->
  exists L r,
    Config.NewSessionLogger lc endpoint env w = (Ret L, r.2) /\
    ID L = idsource env n /\
    lprefix (I L) = "INFO" +:+ ("@" +:+ endpoint +:+ ":" +:+ ID L) +:+ ": " /\
    lprefix (W L) = "WARN" +:+ ("@" +:+ endpoint +:+ ":" +:+ ID L) +:+ ": " /\
    lprefix (E L) = " ERR" +:+ ("@" +:+ endpoint +:+ ":" +:+ ID L) +:+ ": " /\
    LoggerConfig.GetWriter lc Info env w = (Ret (lout (I L)), w) /\
    Write (lout (I L)) (lprefix (I L) +:+ header env +:+ nl) env
          (set_logIDService (Some (S n)) w)
    = (Ret r.1, r.2).
Proof.
  intros H Hn.
  set (id := idsource env n).
  set (w1 := set_logIDService (Some (S n)) w).
  assert (Hrecv : recv_logIDService env w = (Ret id, w1)).
  { unfold recv_logIDService. now rewrite Hn. }
  assert (H1 : heap w1 !! lc = Some cfg) by exact H.
  destruct (newLogger_run lc cfg ("@" +:+ endpoint +:+ ":" +:+ id) env w H)
    as (i & wn & e & Hi & _ & _ & _).
  destruct (newLogger_run lc cfg ("@" +:+ endpoint +:+ ":" +:+ id) env w1 H1)
    as (i' & wn' & e' & Hi' & _ & _ & Hnew).
  assert (i' = i) as ->.
  { destruct (GetWriter_valid lc cfg Info env w H) as (x & Hx & Hgx);
      [unfold Info; lia |].
    destruct (GetWriter_valid lc cfg Info env w1 H1) as (y & Hy & Hgy);
      [unfold Info; lia |].
    congruence. }
  set (L := mkLogger
              (log_New i ("INFO" +:+ ("@" +:+ endpoint +:+ ":" +:+ id) +:+ ": ")
                       Config.flags)
              (log_New wn' ("WARN" +:+ ("@" +:+ endpoint +:+ ":" +:+ id) +:+ ": ")
                       Config.flags)
              (log_New e' (" ERR" +:+ ("@" +:+ endpoint +:+ ":" +:+ id) +:+ ": ")
                       Config.flags)
              id).
  destruct (Println_run (I L) "" env w1) as (r & Hwr & Hpr).
  exists L, r. split; [| repeat split; try reflexivity; [exact Hi | exact Hwr]].
  unfold Config.NewSessionLogger.
  rewrite (bind_Ret _ _ _ _ _ _ Hrecv), (bind_Ret _ _ _ _ _ _ Hnew).
  cbn [I W E]. fold L. now rewrite (bind_Ret _ _ _ _ _ _ Hpr).
Qed.

Lemma NewSessionLogger_run_witness :
  exists L r,
    Config.NewSessionLogger DefaultConfig "foo" env0 world1 = (Ret L, r.2) /\
    ID L = idsource env0 0%nat /\
    lprefix (I L) = "INFO" +:+ ("@" +:+ "foo" +:+ ":" +:+ ID L) +:+ ": " /\
    lprefix (W L) = "WARN" +:+ ("@" +:+ "foo" +:+ ":" +:+ ID L) +:+ ": " /\
    lprefix (E L) = " ERR" +:+ ("@" +:+ "foo" +:+ ":" +:+ ID L) +:+ ": " /\
    LoggerConfig.GetWriter DefaultConfig Info env0 world1
    = (Ret (lout (I L)), world1) /\
    Write (lout (I L)) (lprefix (I L) +:+ header env0 +:+ nl) env0
          (set_logIDService (Some 1%nat) world1)
    = (Ret r.1, r.2).
Proof.
  apply (NewSessionLogger_run DefaultConfig zero_config "foo" 0%nat env0 world1).
  - reflexivity.
  - reflexivity.
Defined.

(** ** Config mutation and loggers already built *)

Ltac run_monad :=
  repeat progress
    (unfold mbind, M_bind, mret, M_ret, deref, store, checked, panic,
       get_world, modify, ask; cbn).

(** The mutators never write to a stream. *)
Lemma mutate_out m env w : out (mutate m env w).2 = out w.
Proof.
  destruct m as [lc l | lc l ws]; cbn [mutate];
    [unfold LoggerConfig.Disable | unfold LoggerConfig.Writer];
    (destruct ((l <? 0) || (l >? 3)); [reflexivity |]);
    run_monad; (destruct (heap w !! lc) as [cfg |]; [| reflexivity]); cbn.
  - now destruct (array3_set (Disabled cfg) l true).
  - now destruct (array3_set (Writers cfg) l (Some (MultiWriter ws))).
Qed.

Lemma after_mutations_out ms env w : out (after_mutations ms env w) = out w.
Proof.
  unfold after_mutations. revert w.
  induction ms as [| m ms IH]; intros w; cbn; [reflexivity |].
  rewrite IH. apply mutate_out.
Qed.

(** C9: the sinks a logger holds are the ones [GetWriter] returned when it
    was built, and whatever calls to [Disable] and [Writer] follow, on this
    or any other config, a line logged through any of its three channels
    reaches the streams exactly as it would have before those calls. *)
Theorem newLogger_sinks_fixed lc prefix env w L w1 :
  Config.newLogger lc prefix env w = (Ret L, w1) ->
  (w1 = w /\
   LoggerConfig.GetWriter lc Info env w = (Ret (lout (I L)), w) /\
   LoggerConfig.GetWriter lc Warn env w = (Ret (lout (W L)), w) /\
   LoggerConfig.GetWriter lc Err env w = (Ret (lout (E L)), w)) /\
  forall ms envm env' ch msg,
    ch ∈ channels L ->
    out (Println ch msg env' (after_mutations ms envm w1)).2
    = out (Println ch msg env' w1).2.
Proof.
  intros Hnew. split.
  - destruct (heap w !! lc) as [cfg |] eqn:Hlc.
    + destruct (newLogger_run lc cfg prefix env w Hlc)
        as (i & wn & e & Hi & Hw & He & Hrun).
      rewrite Hrun in Hnew. injection Hnew as <- <-. now repeat split.
    + rewrite (newLogger_nil lc prefix env w Hlc) in Hnew. discriminate.
  - intros ms envm env' ch msg _. apply Println_out_frame.
    apply after_mutations_out.
Qed.

Lemma newLogger_sinks_fixed_witness :
  (world0 = world0 /\
   LoggerConfig.GetWriter DefaultConfig Info env0 world0
   = (Ret (lout (I master0)), world0) /\
   LoggerConfig.GetWriter DefaultConfig Warn env0 world0
   = (Ret (lout (W master0)), world0) /\
   LoggerConfig.GetWriter DefaultConfig Err env0 world0
   = (Ret (lout (E master0)), world0)) /\
  forall ms envm env' ch msg,
    ch ∈ channels master0 ->
    out (Println ch msg env' (after_mutations ms envm world0)).2
    = out (Println ch msg env' world0).2.
Proof.
  apply (newLogger_sinks_fixed DefaultConfig "" env0 world0 master0 world0).
  reflexivity.
Defined.

(** The config itself does change: after [Disable(Info)] it resolves [Info]
    to the discard sink, while the logger built before still writes its
    Info lines to standard output. *)
Example logger_keeps_stdout_after_Disable :
  let w2 := after_mutations [call_Disable DefaultConfig Info] env0 world0 in
  (LoggerConfig.GetWriter DefaultConfig Info env0 w2).1 = Ret Discard /\
  out (Println (I master0) "hello" env0 w2).2
  = [(os_Stdout, "INFO: 2022/03/15 14:25:30 main.go:10: hello" +:+ nl)].
Proof. split; reflexivity. Qed.

(** ** The legacy initializer *)

Ltac run_legacy :=
  unfold Legacy.InitalizeLogger, os_MkdirAll, os_Create, go_idservice;
  run_monad.

(** A call that reports success has raised the flag. *)
Lemma InitalizeLogger_success_marks logdir env w w1 :
  Legacy.InitalizeLogger logdir env w = (Ret None, w1) ->
  loggerInitted w1 = true.
Proof.
  run_legacy.
  destruct (loggerInitted w); [discriminate |].
  destruct (String.eqb logdir ""); cbn.
  - now intros [= <-].
  - destruct (MkdirAll_fails env logdir); cbn; [discriminate |].
    destruct (Create_fails env _); cbn; [discriminate |].
    now intros [= <-].
Qed.

(** With the flag up the initializer does nothing but report it. *)
Lemma InitalizeLogger_already logdir env w :
  loggerInitted w = true ->
  Legacy.InitalizeLogger logdir env w = (Ret (Some ErrAlreadyInitalized), w).
Proof.
  intros H. run_legacy. now rewrite H.
Qed.

(** C5: after a first successful [InitalizeLogger], a second call, with any
    directory and whatever the clock and the file system say by then,
    returns [ErrAlreadyInitalized] and leaves the whole world, the three
    global writers included, exactly as the first call left it. *)
Theorem InitalizeLogger_twice logdir env w w1 :
  Legacy.InitalizeLogger logdir env w = (Ret None, w1) ->
  forall logdir' env',
    Legacy.InitalizeLogger logdir' env' w1
    = (Ret (Some ErrAlreadyInitalized), w1).
Proof.
  intros H logdir' env'. apply InitalizeLogger_already.
  exact (InitalizeLogger_success_marks logdir env w w1 H).
Qed.

Lemma InitalizeLogger_twice_witness :
  Legacy.InitalizeLogger "elsewhere" env0
    (Legacy.InitalizeLogger "logs" env0 world0).2
  = (Ret (Some ErrAlreadyInitalized),
     (Legacy.InitalizeLogger "logs" env0 world0).2).
Proof.
  apply (InitalizeLogger_twice "logs" env0 world0).
  reflexivity.
Defined.

(** ** The panicking variants *)

(** The initializer itself always returns, with or without an error. *)
Lemma InitalizeLogger_returns logdir env w :
  exists r w', Legacy.InitalizeLogger logdir env w = (Ret r, w').
Proof.
  run_legacy.
  destruct (loggerInitted w); [eauto |].
  destruct (String.eqb logdir ""); cbn; [eauto |].
  destruct (MkdirAll_fails env logdir); cbn; [eauto |].
  destruct (Create_fails env _); cbn; eauto.
Qed.

(** [MustInitalizeLogger] panics whatever [InitalizeLogger] returns. *)
Lemma MustInitalizeLogger_always_panics logdir env w :
  exists p w', Legacy.MustInitalizeLogger logdir env w = (Panics p, w').
Proof.
  destruct (InitalizeLogger_returns logdir env w) as (r & w' & Hrun).
  unfold Legacy.MustInitalizeLogger. rewrite (bind_Ret _ _ _ _ _ _ Hrun).
  destruct r; unfold panic; eauto.
Qed.

(** [MustCreateLogFile] returns exactly when [CreateLogFile] reports no
    error, and then it returns the same file. *)
Lemma MustCreateLogFile_returns_iff logdir env w f w' :
  MustCreateLogFile logdir env w = (Ret f, w') <->
  CreateLogFile logdir env w = (Ret (f, None), w').
Proof.
  unfold MustCreateLogFile. unfold mbind at 1, M_bind at 1.
  destruct (CreateLogFile logdir env w) as [[[f0 [e |]] | p |] w0];
    unfold panic, mret, M_ret; split; intros H; try discriminate;
    injection H as <- <-; reflexivity.
Qed.

(** ... and panics exactly when [CreateLogFile] reports an error. *)
Lemma CreateLogFile_returns logdir env w :
  exists r w', CreateLogFile logdir env w = (Ret r, w').
Proof.
  unfold CreateLogFile, os_MkdirAll, os_Create. run_monad.
  destruct (MkdirAll_fails env logdir); cbn; [eauto |].
  destruct (Create_fails env _); cbn; eauto.
Qed.

Lemma MustCreateLogFile_panics_iff logdir env w w' :
  (exists p, MustCreateLogFile logdir env w = (Panics p, w')) <->
  (exists f e, CreateLogFile logdir env w = (Ret (f, Some e), w')).
Proof.
  destruct (CreateLogFile_returns logdir env w) as ([f oe] & w0 & Hrun).
  unfold MustCreateLogFile. rewrite (bind_Ret _ _ _ _ _ _ Hrun), Hrun.
  destruct oe as [e |]; unfold panic, mret, M_ret; split.
  - intros [p [= _ <-]]. eauto.
  - intros (f' & e' & [= _ _ <-]). eauto.
  - intros [p [=]].
  - intros (f' & e' & [=]).
Qed.

(** C4, where it breaks: with no log directory asked for, on a fresh
    process, [InitalizeLogger] succeeds, yet [MustInitalizeLogger] on the
    same input panics, on the nil error it tries to print. *)
Theorem MustInitalizeLogger_panics_on_success :
  (Legacy.InitalizeLogger "" env0 world0).1 = Ret None /\
  (Legacy.MustInitalizeLogger "" env0 world0).1 = Panics nil_dereference.
Proof. split; reflexivity. Qed.

(** * Further properties of the package *)

(** ** More on arrays of three cells *)

Lemma array3_set_Some_valid {A} (a a' : array3 A) (i : Z) (x : A) :
  array3_set a i x = Some a' -> 0 <= i <= 2.
Proof.
  unfold array3_set.
  destruct (Z.eqb_spec i 0), (Z.eqb_spec i 1), (Z.eqb_spec i 2);
    intros; try lia; discriminate.
Qed.

Lemma array3_set_set {A} (a a' a'' : array3 A) (i : Z) (x y : A) :
  array3_set a i x = Some a' -> array3_set a' i y = Some a'' ->
  array3_set a i y = Some a''.
Proof.
  unfold array3_set.
  destruct (i =? 0); [intros [= <-] [= <-]; reflexivity |].
  destruct (i =? 1); [intros [= <-] [= <-]; reflexivity |].
  destruct (i =? 2); [intros [= <-] [= <-]; reflexivity | discriminate].
Qed.

(** ** What a mutator call does to the world *)

(** Either nothing (the call panicked), or it replaced the target object by
    one that differs in the one array the method writes. *)
Lemma mutate_world m env w :
  (mutate m env w).2 = w \/
  exists cfg cfg',
    heap w !! (target m).1 = Some cfg /\
    0 <= (target m).2 <= 2 /\
    mutate m env w
    = (Ret (target m).1, set_heap (<[(target m).1 := cfg']> (heap w)) w) /\
    match m with
    | call_Disable _ l =>
        array3_set (Disabled cfg) l true = Some (Disabled cfg') /\
        Writers cfg' = Writers cfg
    | call_Writer _ l ws =>
        array3_set (Writers cfg) l (Some (MultiWriter ws))
        = Some (Writers cfg') /\
        Disabled cfg' = Disabled cfg
    end.
Proof.
  destruct m as [lc l | lc l ws]; cbn [mutate target fst snd].
  - unfold LoggerConfig.Disable.
    destruct ((l <? 0) || (l >? 3)); [left; reflexivity |].
    destruct (heap w !! lc) as [cfg |] eqn:Hlc.
    + rewrite (bind_Ret _ _ _ _ _ _ (deref_Some _ _ env _ Hlc)).
      destruct (array3_set (Disabled cfg) l true) as [d |] eqn:Hd;
        [| left; reflexivity].
      right. exists cfg, (mkLoggerConfig d (Writers cfg)).
      repeat split; eauto using array3_set_Some_valid;
        apply (array3_set_Some_valid _ _ _ _ Hd).
    + left. now rewrite (bind_Panics _ _ _ _ _ _ (deref_None _ env _ Hlc)).
  - unfold LoggerConfig.Writer.
    destruct ((l <? 0) || (l >? 3)); [left; reflexivity |].
    destruct (heap w !! lc) as [cfg |] eqn:Hlc.
    + rewrite (bind_Ret _ _ _ _ _ _ (deref_Some _ _ env _ Hlc)).
      destruct (array3_set (Writers cfg) l (Some (MultiWriter ws)))
        as [a |] eqn:Ha; [| left; reflexivity].
      right. exists cfg, (mkLoggerConfig (Disabled cfg) a).
      repeat split; eauto; apply (array3_set_Some_valid _ _ _ _ Ha).
    + left. now rewrite (bind_Panics _ _ _ _ _ _ (deref_None _ env _ Hlc)).
Qed.

(** [GetWriter] looks at nothing but the cell of its level. *)
Lemma GetWriter_cell lc l env w w' :
  cell w lc l = cell w' lc l ->
  (LoggerConfig.GetWriter lc l env w).1 = (LoggerConfig.GetWriter lc l env w').1.
Proof.
  unfold cell, LoggerConfig.GetWriter. intros H.
  destruct ((l <? 0) || (l >? 3)); [reflexivity |].
  destruct (heap w !! lc) as [c |] eqn:Hc, (heap w' !! lc) as [c' |] eqn:Hc';
    try discriminate.
  - injection H as Hd Hw.
    rewrite (bind_Ret _ _ _ _ _ _ (deref_Some _ _ env _ Hc)),
      (bind_Ret _ _ _ _ _ _ (deref_Some _ _ env _ Hc')).
    rewrite <- Hd, <- Hw.
    destruct (array3_get (Disabled c) l) as [[|] |]; try reflexivity.
    cbn. destruct (array3_get (Writers c) l) as [[x |] |]; try reflexivity.
    cbn. now destruct (defaultWriters !! Z.to_nat l).
  - now rewrite (bind_Panics _ _ _ _ _ _ (deref_None _ env _ Hc)),
      (bind_Panics _ _ _ _ _ _ (deref_None _ env _ Hc')).
Qed.

(** X1: a call of [Disable] or [Writer] aimed at one level of one config
    object changes what [GetWriter] answers nowhere else: not for the other
    levels of that object, and not for any other object. *)
Theorem mutate_frame m envm env w lc' l' :
  target m <> (lc', l') ->
  (LoggerConfig.GetWriter lc' l' env (mutate m envm w).2).1
  = (LoggerConfig.GetWriter lc' l' env w).1.
Proof.
  intros Hne.
  destruct (mutate_world m envm w) as [-> | (cfg & cfg' & Hlc & Hl & Hrun & Hm)];
    [reflexivity |].
  rewrite Hrun. cbn [snd]. apply GetWriter_cell. unfold cell. cbn [heap set_heap].
  destruct (decide ((target m).1 = lc')) as [Heq | Hneq].
  - subst lc'. rewrite lookup_insert_eq, Hlc.
    assert (Hl' : (target m).2 <> l').
    { intros <-. apply Hne. now destruct (target m). }
    destruct m as [lc l | lc l ws]; cbn [target fst snd] in *;
      destruct Hm as [Hset Hsame]; rewrite Hsame;
      now rewrite (array3_get_set_ne _ _ _ _ _ Hset Hl').
  - now rewrite lookup_insert_ne.
Qed.

Lemma mutate_frame_witness :
  (LoggerConfig.GetWriter DefaultConfig Err env0
     (mutate (call_Disable DefaultConfig Info) env0 world0).2).1
  = (LoggerConfig.GetWriter DefaultConfig Err env0 world0).1.
Proof.
  apply (mutate_frame (call_Disable DefaultConfig Info) env0 env0 world0
           DefaultConfig Err).
  discriminate.
Defined.

(** The level stays disabled through any further mutator call. *)
Lemma disabled_preserved lc l m env w :
  (exists c, heap w !! lc = Some c /\ array3_get (Disabled c) l = Some true) ->
  exists c, heap (mutate m env w).2 !! lc = Some c /\
            array3_get (Disabled c) l = Some true.
Proof.
  intros (c & Hc & Hd).
  destruct (mutate_world m env w) as [-> | (cfg & cfg' & Hlc & Hl & Hrun & Hm)];
    [eauto |].
  rewrite Hrun. cbn [snd heap set_heap].
  destruct (decide ((target m).1 = lc)) as [Heq | Hneq].
  - rewrite Heq in *. rewrite lookup_insert_eq. exists cfg'. split; [reflexivity |].
    assert (cfg = c) as -> by congruence.
    destruct m as [lc0 l0 | lc0 l0 ws]; cbn [target fst snd] in *;
      destruct Hm as [Hset Hsame].
    + destruct (Z.eq_dec l0 l) as [-> | Hll].
      * exact (array3_get_set_eq _ _ _ _ Hset).
      * now rewrite (array3_get_set_ne _ _ _ _ _ Hset Hll).
    + now rewrite Hsame.
  - rewrite lookup_insert_ne by assumption. eauto.
Qed.

Lemma disabled_GetWriter lc l env w :
  (exists c, heap w !! lc = Some c /\ array3_get (Disabled c) l = Some true) ->
  0 <= l <= 2 ->
  LoggerConfig.GetWriter lc l env w = (Ret Discard, w).
Proof.
  intros (c & Hc & Hd) Hl.
  destruct (GetWriter_valid lc c l env w Hc Hl) as (x & Hx & Hget).
  rewrite Hget. unfold effective in Hx. rewrite Hd in Hx. now injection Hx as <-.
Qed.

(** X2: no method re-enables a level.  Once [Disable(l)] has returned on a
    config, [GetWriter(l)] on it yields the discard sink after any further
    series of [Disable] and [Writer] calls, on any objects and levels. *)
Theorem Disable_is_permanent lc cfg l env w ms envm env' :
  heap w !! lc = Some cfg -> 0 <= l <= 2 ->
  LoggerConfig.GetWriter lc l env'
    (after_mutations ms envm (LoggerConfig.Disable lc l env w).2)
  = (Ret Discard, after_mutations ms envm (LoggerConfig.Disable lc l env w).2).
Proof.
  intros H Hl. apply disabled_GetWriter; [| exact Hl].
  destruct (Disable_valid lc cfg l env w H Hl) as (d & Hd & Hrun).
  rewrite Hrun. cbn [snd].
  assert (Hinv : exists c,
             heap (set_heap (<[lc := mkLoggerConfig d (Writers cfg)]> (heap w)) w)
               !! lc = Some c /\ array3_get (Disabled c) l = Some true).
  { eexists. split; [apply heap_set_heap_insert |].
    exact (array3_get_set_eq _ _ _ _ Hd). }
  revert Hinv. generalize (set_heap (<[lc := mkLoggerConfig d (Writers cfg)]> (heap w)) w).
  unfold after_mutations. induction ms as [| m ms IH]; intros w0 Hinv; cbn.
  - exact Hinv.
  - apply IH. now apply disabled_preserved.
Qed.

Lemma Disable_is_permanent_witness :
  LoggerConfig.GetWriter DefaultConfig Info env0
    (after_mutations [call_Writer DefaultConfig Info [Stream os_Stderr]] env0
       (LoggerConfig.Disable DefaultConfig Info env0 world0).2)
  = (Ret Discard,
     after_mutations [call_Writer DefaultConfig Info [Stream os_Stderr]] env0
       (LoggerConfig.Disable DefaultConfig Info env0 world0).2).
Proof.
  apply (Disable_is_permanent DefaultConfig zero_config Info env0 world0
           [call_Writer DefaultConfig Info [Stream os_Stderr]] env0 env0).
  - reflexivity.
  - unfold Info. lia.
Defined.

(** ** Installing writers *)

Lemma GetWriter_after_Writer lc cfg l ws env w :
  heap w !! lc = Some cfg -> 0 <= l <= 2 ->
  array3_get (Disabled cfg) l = Some false ->
  LoggerConfig.GetWriter lc l env (LoggerConfig.Writer lc l ws env w).2
  = (Ret (MultiWriter ws), (LoggerConfig.Writer lc l ws env w).2).
Proof.
  intros H Hl Hd.
  destruct (Writer_valid lc cfg l ws env w H Hl) as (a & Ha & Hrun).
  rewrite Hrun. cbn [snd].
  pose proof (heap_set_heap_insert lc (mkLoggerConfig (Disabled cfg) a) w) as Hh.
  destruct (GetWriter_valid lc _ l env _ Hh Hl) as (x & Hx & Hget).
  rewrite Hget. unfold effective in Hx. cbn [Disabled Writers] in Hx.
  rewrite Hd, (array3_get_set_eq _ _ _ _ Ha) in Hx. now injection Hx as <-.
Qed.

(** X3: on a valid level that is not disabled, what [GetWriter] returns
    after [Writer(l, ws...)] is the fan-out [io.MultiWriter(ws...)], whatever
    writer was installed before. *)
Theorem Writer_then_GetWriter lc cfg l ws env w :
  heap w !! lc = Some cfg -> 0 <= l <= 2 ->
  array3_get (Disabled cfg) l = Some false ->
  LoggerConfig.GetWriter lc l env (LoggerConfig.Writer lc l ws env w).2
  = (Ret (MultiWriter ws), (LoggerConfig.Writer lc l ws env w).2).
Proof. exact (GetWriter_after_Writer lc cfg l ws env w). Qed.

Lemma Writer_then_GetWriter_witness :
  LoggerConfig.GetWriter DefaultConfig Err env0
    (LoggerConfig.Writer DefaultConfig Err
       [Stream (os_File "a.log"); Stream os_Stderr] env0 world0).2
  = (Ret (MultiWriter [Stream (os_File "a.log"); Stream os_Stderr]),
     (LoggerConfig.Writer DefaultConfig Err
        [Stream (os_File "a.log"); Stream os_Stderr] env0 world0).2).
Proof.
  apply (Writer_then_GetWriter DefaultConfig zero_config Err
           [Stream (os_File "a.log"); Stream os_Stderr] env0 world0).
  - reflexivity.
  - unfold Err. lia.
  - reflexivity.
Defined.

Lemma MultiWriter_streams ss :
  MultiWriter (map Stream ss) = multiWriter (map Stream ss).
Proof.
  unfold MultiWriter. f_equal.
  induction ss as [| s ss IH]; cbn; [reflexivity | now rewrite IH].
Qed.

Lemma Write_each_healthy ss p env w :
  (forall s, In s ss -> broken env s = false) ->
  Write_each p (map Stream ss) env w
  = (Ret (len p, None), set_out (out w ++ chunk_on ss p) w).
Proof.
  revert w. induction ss as [| s ss IH]; intros w Hok.
  - cbn. unfold chunk_on. cbn. rewrite app_nil_r. now rewrite set_out_same.
  - cbn [map Write_each].
    assert (Hs : Write (Stream s) p env w
                 = (Ret (len p, None), set_out (out w ++ [(s, p)]) w)).
    { cbn. now rewrite (Hok s (or_introl eq_refl)). }
    rewrite (bind_Ret _ _ _ _ _ _ Hs). rewrite Z.eqb_refl.
    rewrite IH by (intros s' Hs'; apply Hok; now right).
    cbn [out set_out]. unfold chunk_on. cbn [map].
    now rewrite <- app_assoc.
Qed.

Lemma Write_each_broken ss1 s ss2 p env w :
  (forall s', In s' ss1 -> broken env s' = false) ->
  broken env s = true ->
  Write_each p (map Stream (ss1 ++ s :: ss2)) env w
  = (Ret (0, Some (PathError "write" "stream")),
     set_out (out w ++ chunk_on ss1 p) w).
Proof.
  revert w. induction ss1 as [| s1 ss1 IH]; intros w Hok Hbad.
  - cbn [app map Write_each].
    assert (Hs : Write (Stream s) p env w
                 = (Ret (0, Some (PathError "write" "stream")), w)).
    { cbn. now rewrite Hbad. }
    rewrite (bind_Ret _ _ _ _ _ _ Hs). unfold chunk_on. cbn.
    rewrite app_nil_r. now rewrite set_out_same.
  - cbn [app map Write_each].
    assert (Hs : Write (Stream s1) p env w
                 = (Ret (len p, None), set_out (out w ++ [(s1, p)]) w)).
    { cbn. now rewrite (Hok s1 (or_introl eq_refl)). }
    rewrite (bind_Ret _ _ _ _ _ _ Hs). rewrite Z.eqb_refl.
    rewrite IH by (try assumption; intros s' Hs'; apply Hok; now right).
    cbn [out set_out]. unfold chunk_on. cbn [map].
    now rewrite <- app_assoc.
Qed.

(** X4: fan-out.  After [Writer(l, s1, ..., sn)] with streams that all take
    their writes, on a level that is not disabled, one [Write] on what
    [GetWriter(l)] returns puts the same chunk, unmodified, on every one of
    the streams, in the order given, and reports the whole chunk written. *)
Theorem Writer_fans_out lc cfg l ss env w :
  heap w !! lc = Some cfg -> 0 <= l <= 2 ->
  array3_get (Disabled cfg) l = Some false ->
  (forall s, In s ss -> broken env s = false) ->
  exists x,
    (LoggerConfig.GetWriter lc l env
       (LoggerConfig.Writer lc l (map Stream ss) env w).2).1 = Ret x /\
    forall p w',
      Write x p env w'
      = (Ret (len p, None), set_out (out w' ++ chunk_on ss p) w').
Proof.
  intros H Hl Hd Hok. exists (MultiWriter (map Stream ss)). split.
  - now rewrite (GetWriter_after_Writer lc cfg l _ env w H Hl Hd).
  - intros p w'. rewrite MultiWriter_streams, Write_multiWriter.
    now apply Write_each_healthy.
Qed.

Lemma Writer_fans_out_witness :
  exists x,
    (LoggerConfig.GetWriter DefaultConfig Warn env0
       (LoggerConfig.Writer DefaultConfig Warn
          (map Stream [os_File "a.log"; os_Stdout]) env0 world0).2).1 = Ret x /\
    forall p w',
      Write x p env0 w'
      = (Ret (len p, None),
         set_out (out w' ++ chunk_on [os_File "a.log"; os_Stdout] p) w').
Proof.
  apply (Writer_fans_out DefaultConfig zero_config Warn
           [os_File "a.log"; os_Stdout] env0 world0).
  - reflexivity.
  - unfold Warn. lia.
  - reflexivity.
  - reflexivity.
Defined.

(** X5: a fan-out stops at the first stream that refuses.  With the streams
    before it healthy, those get the chunk, the broken one and all the
    streams after it get nothing, and the write reports no byte written and
    the error. *)
Theorem Writer_fan_out_stops_at_broken lc cfg l ss1 s ss2 env w :
  heap w !! lc = Some cfg -> 0 <= l <= 2 ->
  array3_get (Disabled cfg) l = Some false ->
  (forall s', In s' ss1 -> broken env s' = false) ->
  broken env s = true ->
  exists x,
    (LoggerConfig.GetWriter lc l env
       (LoggerConfig.Writer lc l (map Stream (ss1 ++ s :: ss2)) env w).2).1
    = Ret x /\
    forall p w',
      Write x p env w'
      = (Ret (0, Some (PathError "write" "stream")),
         set_out (out w' ++ chunk_on ss1 p) w').
Proof.
  intros H Hl Hd Hok Hbad. exists (MultiWriter (map Stream (ss1 ++ s :: ss2))).
  split.
  - now rewrite (GetWriter_after_Writer lc cfg l _ env w H Hl Hd).
  - intros p w'. rewrite MultiWriter_streams, Write_multiWriter.
    now apply Write_each_broken.
Qed.

Lemma Writer_fan_out_stops_at_broken_witness :
  exists x,
    (LoggerConfig.GetWriter DefaultConfig Err env_broken_files
       (LoggerConfig.Writer DefaultConfig Err
          (map Stream ([os_Stderr] ++ os_File "a.log" :: [os_Stdout]))
          env_broken_files world0).2).1
    = Ret x /\
    forall p w',
      Write x p env_broken_files w'
      = (Ret (0, Some (PathError "write" "stream")),
         set_out (out w' ++ chunk_on [os_Stderr] p) w').
Proof.
  apply (Writer_fan_out_stops_at_broken DefaultConfig zero_config Err
           [os_Stderr] (os_File "a.log") [os_Stdout] env_broken_files world0).
  - reflexivity.
  - unfold Err. lia.
  - reflexivity.
  - intros s' [<- | []]. reflexivity.
  - reflexivity.
Defined.

(** X6: [GetWriter] only reads.  On every pointer and every level, valid or
    not, the world after the call is the world before it, and the call never
    blocks. *)
Theorem GetWriter_read_only lc l env w :
  (LoggerConfig.GetWriter lc l env w).2 = w /\
  (LoggerConfig.GetWriter lc l env w).1 <> Blocks.
Proof.
  unfold LoggerConfig.GetWriter.
  destruct ((l <? 0) || (l >? 3)); [now split |].
  destruct (heap w !! lc) as [c |] eqn:Hc.
  - rewrite (bind_Ret _ _ _ _ _ _ (deref_Some _ _ env _ Hc)).
    destruct (array3_get (Disabled c) l) as [[|] |]; cbn; try now split.
    destruct (array3_get (Writers c) l) as [[x |] |]; cbn; try now split.
    destruct (defaultWriters !! Z.to_nat l); cbn; now split.
  - rewrite (bind_Panics _ _ _ _ _ _ (deref_None _ env _ Hc)). now split.
Qed.

(** ** How the mutators compose *)

Lemma set_heap_set_heap h h' w : set_heap h (set_heap h' w) = set_heap h w.
Proof. reflexivity. Qed.

(** X7: [Disable] is idempotent: a second [Disable(l)] on the same config
    returns the same pointer and leaves the world as the first one did. *)
Theorem Disable_idempotent lc cfg l env env' w :
  heap w !! lc = Some cfg -> 0 <= l <= 2 ->
  LoggerConfig.Disable lc l env' (LoggerConfig.Disable lc l env w).2
  = LoggerConfig.Disable lc l env w.
Proof.
  intros H Hl.
  destruct (Disable_valid lc cfg l env w H Hl) as (d & Hd & Hrun).
  rewrite Hrun. cbn [snd].
  pose proof (heap_set_heap_insert lc (mkLoggerConfig d (Writers cfg)) w) as Hh.
  destruct (Disable_valid lc _ l env' _ Hh Hl) as (d2 & Hd2 & Hrun2).
  rewrite Hrun2. cbn [Disabled Writers heap set_heap] in *.
  pose proof (array3_set_set _ _ _ _ _ _ Hd Hd2) as Hdd.
  assert (d2 = d) as -> by congruence.
  rewrite set_heap_set_heap. now rewrite insert_insert_eq.
Qed.

Lemma Disable_idempotent_witness :
  LoggerConfig.Disable DefaultConfig Err env0
    (LoggerConfig.Disable DefaultConfig Err env0 world0).2
  = LoggerConfig.Disable DefaultConfig Err env0 world0.
Proof.
  apply (Disable_idempotent DefaultConfig zero_config Err env0 env0 world0).
  - reflexivity.
  - unfold Err. lia.
Defined.

(** X8: the last [Writer] wins: installing writers for a level twice is the
    same, for the whole world, as installing the second list alone. *)
Theorem Writer_overrides lc cfg l ws1 ws2 env env' w :
  heap w !! lc = Some cfg -> 0 <= l <= 2 ->
  LoggerConfig.Writer lc l ws2 env' (LoggerConfig.Writer lc l ws1 env w).2
  = LoggerConfig.Writer lc l ws2 env' w.
Proof.
  intros H Hl.
  destruct (Writer_valid lc cfg l ws1 env w H Hl) as (a1 & Ha1 & Hrun1).
  rewrite Hrun1. cbn [snd].
  pose proof (heap_set_heap_insert lc (mkLoggerConfig (Disabled cfg) a1) w) as Hh.
  destruct (Writer_valid lc _ l ws2 env' _ Hh Hl) as (a2 & Ha2 & Hrun2).
  destruct (Writer_valid lc cfg l ws2 env' w H Hl) as (a & Ha & Hrun).
  rewrite Hrun2, Hrun. cbn [Disabled Writers heap set_heap] in *.
  pose proof (array3_set_set _ _ _ _ _ _ Ha1 Ha2) as Haa.
  assert (a2 = a) as -> by congruence.
  rewrite set_heap_set_heap. now rewrite insert_insert_eq.
Qed.

Lemma Writer_overrides_witness :
  LoggerConfig.Writer DefaultConfig Info [Stream os_Stderr] env0
    (LoggerConfig.Writer DefaultConfig Info [Discard] env0 world0).2
  = LoggerConfig.Writer DefaultConfig Info [Stream os_Stderr] env0 world0.
Proof.
  apply (Writer_overrides DefaultConfig zero_config Info
           [Discard] [Stream os_Stderr] env0 env0 world0).
  - reflexivity.
  - unfold Info. lia.
Defined.

(** X9: [Disable] and [Writer] commute: on one config, for any two valid
    levels, equal or not, the world is the same whichever is called first. *)
Theorem Disable_Writer_commute lc cfg l1 l2 ws env w :
  heap w !! lc = Some cfg -> 0 <= l1 <= 2 -> 0 <= l2 <= 2 ->
  (LoggerConfig.Writer lc l2 ws env (LoggerConfig.Disable lc l1 env w).2).2
  = (LoggerConfig.Disable lc l1 env (LoggerConfig.Writer lc l2 ws env w).2).2.
Proof.
  intros H Hl1 Hl2.
  destruct (Disable_valid lc cfg l1 env w H Hl1) as (d & Hd & HrunD).
  destruct (Writer_valid lc cfg l2 ws env w H Hl2) as (a & Ha & HrunW).
  rewrite HrunD, HrunW. cbn [snd].
  pose proof (heap_set_heap_insert lc (mkLoggerConfig d (Writers cfg)) w) as HhD.
  pose proof (heap_set_heap_insert lc (mkLoggerConfig (Disabled cfg) a) w) as HhW.
  destruct (Writer_valid lc _ l2 ws env _ HhD Hl2) as (a' & Ha' & Hrun1).
  destruct (Disable_valid lc _ l1 env _ HhW Hl1) as (d' & Hd' & Hrun2).
  rewrite Hrun1, Hrun2. cbn [Disabled Writers heap set_heap snd] in *.
  assert (a' = a) as -> by congruence.
  assert (d' = d) as -> by congruence.
  rewrite !set_heap_set_heap. now rewrite !insert_insert_eq.
Qed.

Lemma Disable_Writer_commute_witness :
  (LoggerConfig.Writer DefaultConfig Info [Stream os_Stderr] env0
     (LoggerConfig.Disable DefaultConfig Info env0 world0).2).2
  = (LoggerConfig.Disable DefaultConfig Info env0
       (LoggerConfig.Writer DefaultConfig Info [Stream os_Stderr] env0 world0).2).2.
Proof.
  apply (Disable_Writer_commute DefaultConfig zero_config Info Info
           [Stream os_Stderr] env0 world0).
  - reflexivity.
  - unfold Info. lia.
  - unfold Info. lia.
Defined.

(** ** Session loggers and the ID service *)

(** [newLogger] in terms of the config object it reads. *)
Lemma newLogger_effective lc cfg prefix env w :
  heap w !! lc = Some cfg ->
  exists i wn e,
    effective cfg Info = Some i /\
    effective cfg Warn = Some wn /\
    effective cfg Err = Some e /\
    Config.newLogger lc prefix env w
    = (Ret (mkLogger
              (log_New i ("INFO" +:+ prefix +:+ ": ") Config.flags)
              (log_New wn ("WARN" +:+ prefix +:+ ": ") Config.flags)
              (log_New e (" ERR" +:+ prefix +:+ ": ") Config.flags)
              ""), w).
Proof.
  intros H.
  destruct (GetWriter_valid lc cfg Info env w H) as (i & Hi & Gi);
    [unfold Info; lia |].
  destruct (GetWriter_valid lc cfg Warn env w H) as (wn & Hw & Gw);
    [unfold Warn; lia |].
  destruct (GetWriter_valid lc cfg Err env w H) as (e & He & Ge);
    [unfold Err; lia |].
  exists i, wn, e. repeat split; try assumption.
  unfold Config.newLogger.
  now rewrite (bind_Ret _ _ _ _ _ _ Gi), (bind_Ret _ _ _ _ _ _ Gw),
    (bind_Ret _ _ _ _ _ _ Ge).
Qed.

(** The whole of a session logger's construction, step by step. *)
Lemma NewSessionLogger_steps lc cfg endpoint n env w :
  heap w !! lc = Some cfg -> logIDService w = Some n ->
  exists i wn e r o,
    effective cfg Info = Some i /\
    effective cfg Warn = Some wn /\
    effective cfg Err = Some e /\
    Write i (("INFO" +:+ ("@" +:+ endpoint +:+ ":" +:+ idsource env n) +:+ ": ")
               +:+ header env +:+ nl)
          env (set_logIDService (Some (S n)) w)
    = (Ret r, set_out o (set_logIDService (Some (S n)) w)) /\
    Config.NewSessionLogger lc endpoint env w
    = (Ret (mkLogger
              (log_New i ("INFO" +:+ ("@" +:+ endpoint +:+ ":" +:+ idsource env n)
                                 +:+ ": ") Config.flags)
              (log_New wn ("WARN" +:+ ("@" +:+ endpoint +:+ ":" +:+ idsource env n)
                                  +:+ ": ") Config.flags)
              (log_New e (" ERR" +:+ ("@" +:+ endpoint +:+ ":" +:+ idsource env n)
                                 +:+ ": ") Config.flags)
              (idsource env n)),
       set_out o (set_logIDService (Some (S n)) w)).
Proof.
  intros H Hn.
  set (w1 := set_logIDService (Some (S n)) w).
  assert (Hrecv : recv_logIDService env w = (Ret (idsource env n), w1)).
  { unfold recv_logIDService. now rewrite Hn. }
  assert (H1 : heap w1 !! lc = Some cfg) by exact H.
  destruct (newLogger_effective lc cfg
              ("@" +:+ endpoint +:+ ":" +:+ idsource env n) env w1 H1)
    as (i & wn & e & Hi & Hw & He & Hnew).
  destruct (Write_frame i
              (("INFO" +:+ ("@" +:+ endpoint +:+ ":" +:+ idsource env n) +:+ ": ")
                 +:+ header env +:+ nl) env w1) as (r & o & Hwr & _).
  exists i, wn, e, r, o. repeat split; try assumption.
  unfold Config.NewSessionLogger.
  rewrite (bind_Ret _ _ _ _ _ _ Hrecv), (bind_Ret _ _ _ _ _ _ Hnew).
  cbn [I W E]. unfold Println, ask. unfold mbind at 1 2, M_bind at 1 2.
  cbn [lout lprefix]. now rewrite (bind_Ret _ _ _ _ _ _ Hwr).
Qed.

(** X10: while the ID channel is nil, [NewSessionLogger] blocks on the
    receive, whatever the config and the endpoint, and nothing has happened
    by then: no config is read and nothing is written. *)
Theorem NewSessionLogger_blocks_without_service lc endpoint env w :
  logIDService w = None ->
  Config.NewSessionLogger lc endpoint env w = (Blocks, w).
Proof.
  intros H. unfold Config.NewSessionLogger.
  unfold mbind at 1, M_bind at 1. unfold recv_logIDService. now rewrite H.
Qed.

Lemma NewSessionLogger_blocks_without_service_witness :
  Config.NewSessionLogger DefaultConfig "foo" env0 world0 = (Blocks, world0).
Proof.
  apply (NewSessionLogger_blocks_without_service DefaultConfig "foo" env0 world0).
  reflexivity.
Defined.



(** X12: tokens are handed out in generation order, one per session logger:
    two constructions in a row, on any configs and endpoints, give the
    loggers the next two tokens of the generator, so their IDs differ
    whenever the generator does not repeat itself there. *)
Theorem session_tokens_in_order lc1 lc2 c1 c2 e1 e2 n env w :
  heap w !! lc1 = Some c1 -> heap w !! lc2 = Some c2 ->
  logIDService w = Some n ->
  exists L1 L2 w1 w2,
    Config.NewSessionLogger lc1 e1 env w = (Ret L1, w1) /\
    Config.NewSessionLogger lc2 e2 env w1 = (Ret L2, w2) /\
    ID L1 = idsource env n /\
    ID L2 = idsource env (S n) /\
    logIDService w2 = Some (S (S n)) /\
    (idsource env n <> idsource env (S n) -> ID L1 <> ID L2).
Proof.
  intros H1 H2 Hn.
  destruct (NewSessionLogger_steps lc1 c1 e1 n env w H1 Hn)
    as (i & wn & e & r & o & _ & _ & _ & _ & Hrun1).
  set (w1 := set_out o (set_logIDService (Some (S n)) w)) in *.
  assert (H2' : heap w1 !! lc2 = Some c2) by exact H2.
  destruct (NewSessionLogger_steps lc2 c2 e2 (S n) env w1 H2' eq_refl)
    as (i' & wn' & e' & r' & o' & _ & _ & _ & _ & Hrun2).
  do 4 eexists. split; [exact Hrun1 |]. split; [exact Hrun2 |].
  repeat split. intros Hne. exact Hne.
Qed.

Lemma session_tokens_in_order_witness :
  exists L1 L2 w1 w2,
    Config.NewSessionLogger DefaultConfig "a" env0 world1 = (Ret L1, w1) /\
    Config.NewSessionLogger DefaultConfig "b" env0 w1 = (Ret L2, w2) /\
    ID L1 = idsource env0 0%nat /\
    ID L2 = idsource env0 1%nat /\
    logIDService w2 = Some 2%nat /\
    (idsource env0 0%nat <> idsource env0 1%nat -> ID L1 <> ID L2).
Proof.
  apply (session_tokens_in_order DefaultConfig DefaultConfig
           zero_config zero_config "a" "b" 0%nat env0 world1).
  - reflexivity.
  - reflexivity.
  - reflexivity.
Defined.

(** X13: on a config whose Info level is enabled with no writer set, and
    with standard output taking its writes, building a session logger puts
    exactly one chunk on the streams: the Info prefix with [@endpoint:id],
    the header, and a line feed, on standard output. *)
Theorem NewSessionLogger_blank_line_on_stdout lc cfg endpoint n env w :
  heap w !! lc = Some cfg -> logIDService w = Some n ->
  array3_get (Disabled cfg) Info = Some false ->
  array3_get (Writers cfg) Info = Some None ->
  broken env os_Stdout = false ->
  out (Config.NewSessionLogger lc endpoint env w).2
  = (out w ++
     [(os_Stdout,
       ("INFO" +:+ ("@" +:+ endpoint +:+ ":" +:+ idsource env n) +:+ ": ")
         +:+ header env +:+ nl)])%list.
Proof.
  intros H Hn Hd Hw Hok.
  destruct (NewSessionLogger_steps lc cfg endpoint n env w H Hn)
    as (i & wn & e & r & o & Hi & _ & _ & Hwr & Hrun).
  rewrite Hrun. cbn [snd out set_out].
  unfold effective in Hi. rewrite Hd, Hw in Hi. cbn in Hi. injection Hi as <-.
  cbn in Hwr. rewrite Hok in Hwr. now injection Hwr as _ <-.
Qed.

Lemma NewSessionLogger_blank_line_on_stdout_witness :
  out (Config.NewSessionLogger DefaultConfig "foo" env0 world1).2
  = (out world1 ++
     [(os_Stdout,
       ("INFO" +:+ ("@" +:+ "foo" +:+ ":" +:+ idsource env0 0%nat) +:+ ": ")
         +:+ header env0 +:+ nl)])%list.
Proof.
  apply (NewSessionLogger_blank_line_on_stdout DefaultConfig zero_config
           "foo" 0%nat env0 world1).
  - reflexivity.
  - reflexivity.
  - reflexivity.
  - reflexivity.
  - reflexivity.
Defined.

(** X14: with the Info level disabled, building a session logger writes
    nothing at all: the world changes by the one token taken and no more. *)
Theorem NewSessionLogger_silent_when_Info_disabled lc cfg endpoint n env w :
  heap w !! lc = Some cfg -> logIDService w = Some n ->
  array3_get (Disabled cfg) Info = Some true ->
  (Config.NewSessionLogger lc endpoint env w).2
  = set_logIDService (Some (S n)) w.
Proof.
  intros H Hn Hd.
  destruct (NewSessionLogger_steps lc cfg endpoint n env w H Hn)
    as (i & wn & e & r & o & Hi & _ & _ & Hwr & Hrun).
  rewrite Hrun. cbn [snd].
  unfold effective in Hi. rewrite Hd in Hi. injection Hi as <-.
  cbn in Hwr. now injection Hwr as _ <-.
Qed.

Lemma NewSessionLogger_silent_when_Info_disabled_witness :
  (Config.NewSessionLogger DefaultConfig "foo" env0
     (LoggerConfig.Disable DefaultConfig Info env0 world1).2).2
  = set_logIDService (Some 1%nat)
      (LoggerConfig.Disable DefaultConfig Info env0 world1).2.
Proof.
  apply (NewSessionLogger_silent_when_Info_disabled DefaultConfig
           (mkLoggerConfig (Array3 true false false) (Array3 None None None))
           "foo" 0%nat env0).
  - reflexivity.
  - reflexivity.
  - reflexivity.
Defined.

(** ** Loggers built after the config was set up *)

Lemma channel_newLogger i wn e prefix id l :
  0 <= l <= 2 ->
  exists x,
    (l = Info /\ x = i \/ l = Warn /\ x = wn \/ l = Err /\ x = e) /\
    channel (mkLogger (log_New i ("INFO" +:+ prefix +:+ ": ") Config.flags)
                      (log_New wn ("WARN" +:+ prefix +:+ ": ") Config.flags)
                      (log_New e (" ERR" +:+ prefix +:+ ": ") Config.flags)
                      id) l
    = Some (log_New x (level_tag l +:+ prefix +:+ ": ") Config.flags).
Proof.
  intros Hl. each_level l Hl; eexists; (split; [| reflexivity]); auto.
Qed.

(** The channel a fresh logger has for a valid level: the writer the config
    resolves for that level, under the level's tag and the prefix. *)
Lemma newLogger_channel lc cfg prefix l env w :
  heap w !! lc = Some cfg -> 0 <= l <= 2 ->
  exists L x,
    Config.newLogger lc prefix env w = (Ret L, w) /\
    effective cfg l = Some x /\
    channel L l = Some (log_New x (level_tag l +:+ prefix +:+ ": ") Config.flags).
Proof.
  intros H Hl.
  destruct (newLogger_effective lc cfg prefix env w H)
    as (i & wn & e & Hi & Hw & He & Hnew).
  destruct (channel_newLogger i wn e prefix "" l Hl) as (x & Hx & Hch).
  eexists. exists x. split; [exact Hnew |]. split; [| exact Hch].
  destruct Hx as [[-> ->] | [[-> ->] | [-> ->]]]; assumption.
Qed.

(** X15: a logger built after [Disable(l)] is mute at that level: its
    channel for [l] holds the discard sink, and a line logged through it
    leaves the world, hence every stream, untouched. *)
Theorem logger_built_after_Disable_is_mute lc cfg l prefix env w :
  heap w !! lc = Some cfg -> 0 <= l <= 2 ->
  exists L ch,
    Config.newLogger lc prefix env (LoggerConfig.Disable lc l env w).2
    = (Ret L, (LoggerConfig.Disable lc l env w).2) /\
    channel L l = Some ch /\
    lout ch = Discard /\
    forall msg env' w', Println ch msg env' w' = (Ret tt, w').
Proof.
  intros H Hl.
  destruct (Disable_valid lc cfg l env w H Hl) as (d & Hd & Hrun).
  rewrite Hrun. cbn [snd].
  pose proof (heap_set_heap_insert lc (mkLoggerConfig d (Writers cfg)) w) as Hh.
  destruct (newLogger_channel lc _ prefix l env _ Hh Hl) as (L & x & Hnew & Hx & Hch).
  unfold effective in Hx. cbn [Disabled] in Hx.
  rewrite (array3_get_set_eq _ _ _ _ Hd) in Hx. injection Hx as <-.
  exists L. eexists. split; [exact Hnew |]. split; [exact Hch |].
  split; reflexivity.
Qed.

Lemma logger_built_after_Disable_is_mute_witness :
  exists L ch,
    Config.newLogger DefaultConfig "" env0
      (LoggerConfig.Disable DefaultConfig Warn env0 world0).2
    = (Ret L, (LoggerConfig.Disable DefaultConfig Warn env0 world0).2) /\
    channel L Warn = Some ch /\
    lout ch = Discard /\
    forall msg env' w', Println ch msg env' w' = (Ret tt, w').
Proof.
  apply (logger_built_after_Disable_is_mute DefaultConfig zero_config Warn ""
           env0 world0).
  - reflexivity.
  - unfold Warn. lia.
Defined.

(** X16: the line format, end to end.  After [Writer(l, s1, ..., sn)] on an
    enabled level, with healthy streams, a logger built from the config
    with some prefix turns [Println(msg)] on its channel for [l] into one
    chunk on each of the streams, in order: the level tag, the prefix,
    [": "], the header, the message and a line feed. *)
Theorem logged_line_reaches_every_stream lc cfg l ss prefix msg env w :
  heap w !! lc = Some cfg -> 0 <= l <= 2 ->
  array3_get (Disabled cfg) l = Some false ->
  (forall s, In s ss -> broken env s = false) ->
  exists L ch,
    (Config.newLogger lc prefix env
       (LoggerConfig.Writer lc l (map Stream ss) env w).2).1 = Ret L /\
    channel L l = Some ch /\
    forall w',
      Println ch msg env w'
      = (Ret tt,
         set_out (out w' ++
                  chunk_on ss ((level_tag l +:+ prefix +:+ ": ")
                                 +:+ header env +:+ msg +:+ nl)) w').
Proof.
  intros H Hl Hd Hok.
  destruct (Writer_valid lc cfg l (map Stream ss) env w H Hl) as (a & Ha & Hrun).
  rewrite Hrun. cbn [snd].
  pose proof (heap_set_heap_insert lc (mkLoggerConfig (Disabled cfg) a) w) as Hh.
  destruct (newLogger_channel lc _ prefix l env _ Hh Hl) as (L & x & Hnew & Hx & Hch).
  unfold effective in Hx. cbn [Disabled Writers] in Hx.
  rewrite Hd, (array3_get_set_eq _ _ _ _ Ha) in Hx. injection Hx as <-.
  exists L. eexists. split; [now rewrite Hnew |]. split; [exact Hch |].
  intros w'. unfold Println, ask. unfold mbind at 1 2, M_bind at 1 2.
  cbn [lout lprefix]. rewrite MultiWriter_streams, Write_multiWriter.
  now rewrite (Write_each_healthy ss _ env w' Hok).
Qed.

Lemma logged_line_reaches_every_stream_witness :
  exists L ch,
    (Config.newLogger DefaultConfig "@foo:tok0" env0
       (LoggerConfig.Writer DefaultConfig Err
          (map Stream [os_File "a.log"; os_Stderr]) env0 world0).2).1 = Ret L /\
    channel L Err = Some ch /\
    forall w',
      Println ch "disk full" env0 w'
      = (Ret tt,
         set_out (out w' ++
                  chunk_on [os_File "a.log"; os_Stderr]
                    ((level_tag Err +:+ "@foo:tok0" +:+ ": ")
                       +:+ header env0 +:+ "disk full" +:+ nl)) w').
Proof.
  apply (logged_line_reaches_every_stream DefaultConfig zero_config Err
           [os_File "a.log"; os_Stderr] "@foo:tok0" "disk full" env0 world0).
  - reflexivity.
  - unfold Err. lia.
  - reflexivity.
  - reflexivity.
Defined.

Lemma GetWriter_pair lc l env w :
  LoggerConfig.GetWriter lc l env w = ((LoggerConfig.GetWriter lc l env w).1, w).
Proof.
  unfold LoggerConfig.GetWriter.
  destruct ((l <? 0) || (l >? 3)); [reflexivity |].
  destruct (heap w !! lc) as [c |] eqn:Hc.
  - rewrite (bind_Ret _ _ _ _ _ _ (deref_Some _ _ env _ Hc)).
    destruct (array3_get (Disabled c) l) as [[|] |]; cbn; try reflexivity.
    destruct (array3_get (Writers c) l) as [[x |] |]; cbn; try reflexivity.
    now destruct (defaultWriters !! Z.to_nat l).
  - now rewrite (bind_Panics _ _ _ _ _ _ (deref_None _ env _ Hc)).
Qed.

(** [newLogger] sees the world through the three [GetWriter] calls only. *)
Lemma newLogger_congr lc prefix env w w' :
  (forall l, (LoggerConfig.GetWriter lc l env w).1
             = (LoggerConfig.GetWriter lc l env w').1) ->
  (Config.newLogger lc prefix env w).1 = (Config.newLogger lc prefix env w').1.
Proof.
  intros H. unfold Config.newLogger, mbind, M_bind.
  rewrite (GetWriter_pair lc Info env w), (GetWriter_pair lc Info env w'), (H Info).
  destruct (LoggerConfig.GetWriter lc Info env w').1; try reflexivity.
  rewrite (GetWriter_pair lc Warn env w), (GetWriter_pair lc Warn env w'), (H Warn).
  destruct (LoggerConfig.GetWriter lc Warn env w').1; try reflexivity.
  rewrite (GetWriter_pair lc Err env w), (GetWriter_pair lc Err env w'), (H Err).
  destruct (LoggerConfig.GetWriter lc Err env w').1; reflexivity.
Qed.

(** X17: configs are independent.  A [Disable] or [Writer] call on one
    config object does not change the logger [NewMasterLogger] builds from
    another one; in particular the package-level [NewMasterLogger], which
    reads [DefaultConfig], is unaffected by calls on any config of the
    client's own. *)
Theorem NewMasterLogger_other_config m lc envm env w :
  (target m).1 <> lc ->
  (Config.NewMasterLogger lc env (mutate m envm w).2).1
  = (Config.NewMasterLogger lc env w).1.
Proof.
  intros Hne.
  assert (Hnew : (Config.newLogger lc "" env (mutate m envm w).2).1
                 = (Config.newLogger lc "" env w).1).
  { apply newLogger_congr. intros l.
    destruct (mutate_world m envm w)
      as [-> | (cfg & cfg' & Hlc & Hl & Hrun & _)]; [reflexivity |].
    rewrite Hrun. cbn [snd]. apply GetWriter_cell. unfold cell.
    cbn [heap set_heap]. now rewrite lookup_insert_ne. }
  unfold Config.NewMasterLogger, mbind, M_bind.
  destruct (Config.newLogger lc "" env (mutate m envm w).2) as [r1 v1].
  destruct (Config.newLogger lc "" env w) as [r2 v2].
  cbn [fst] in Hnew. subst r2. now destruct r1.
Qed.

Lemma NewMasterLogger_other_config_witness :
  (Config.NewMasterLogger DefaultConfig env0
     (mutate (call_Disable 2%positive Info) env0
        (set_heap (<[2%positive := zero_config]> (heap world0)) world0)).2).1
  = (Config.NewMasterLogger DefaultConfig env0
       (set_heap (<[2%positive := zero_config]> (heap world0)) world0)).1.
Proof.
  apply (NewMasterLogger_other_config (call_Disable 2%positive Info)
           DefaultConfig env0 env0).
  discriminate.
Defined.

(** ** Making the log file *)




Lemma CreateLogFile_run logdir env w :
  CreateLogFile logdir env w
  = if MkdirAll_fails env logdir
    then (Ret (None, Some (PathError "mkdir" logdir)), w)
    else if Create_fails env (log_path logdir env)
         then (Ret (None, Some (PathError "open" (log_path logdir env))),
               set_created (created w ++ [logdir]) w)
         else (Ret (Some (os_File (log_path logdir env)), None),
               set_created (created w ++ [logdir; log_path logdir env]) w).
Proof.
  unfold CreateLogFile, os_MkdirAll, os_Create, log_path. run_monad.
  destruct (MkdirAll_fails env logdir); cbn; [reflexivity |].
  destruct (Create_fails env _); cbn; [reflexivity |].
  unfold set_created. cbn. now rewrite <- app_assoc.
Qed.

(** X18: [CreateLogFile] always returns, with exactly one of the file and
    the error non-nil, and the error is nil exactly when neither
    [os.MkdirAll] on the directory nor [os.Create] on the file path is
    refused. *)
Theorem CreateLogFile_file_or_error logdir env w :
  exists f e w',
    CreateLogFile logdir env w = (Ret (f, e), w') /\
    (is_Some f <-> e = None) /\
    (e = None <->
     MkdirAll_fails env logdir = false /\
     Create_fails env (log_path logdir env) = false).
Proof.
  rewrite CreateLogFile_run.
  destruct (MkdirAll_fails env logdir); [| destruct (Create_fails env _)];
    do 3 eexists; (split; [reflexivity |]); split; split;
    try (intros [? [=]]); try discriminate; try (intros [[=] [=]]);
    try (intros [_ [=]]); try (intros [[=] _]); eauto.
Qed.

(** X19: when the directory can be made but the file cannot, the error comes
    back with a nil file and the directory stays behind: nothing is cleaned
    up. *)
Theorem CreateLogFile_leaves_directory logdir env w :
  MkdirAll_fails env logdir = false ->
  Create_fails env (log_path logdir env) = true ->
  exists e,
    CreateLogFile logdir env w
    = (Ret (None, Some e), set_created (created w ++ [logdir]) w).
Proof.
  intros Hm Hc. rewrite CreateLogFile_run, Hm, Hc. eauto.
Qed.

Lemma CreateLogFile_leaves_directory_witness :
  exists e,
    CreateLogFile "logs" env_no_create world0
    = (Ret (None, Some e), set_created (created world0 ++ ["logs"]) world0).
Proof.
  apply (CreateLogFile_leaves_directory "logs" env_no_create world0).
  - reflexivity.
  - reflexivity.
Defined.



(** X21: [MustCreateLogFile] does what [CreateLogFile] does and then, on
    a nil error, returns the same file; on an error it panics with the
    fixed text, a line feed and the error's own message.  Either way the
    world is as [CreateLogFile] left it. *)
Theorem MustCreateLogFile_outcome logdir env w :
  exists f e w',
    CreateLogFile logdir env w = (Ret (f, e), w') /\
    MustCreateLogFile logdir env w
    = match e with
      | None => (Ret f, w')
      | Some err =>
          (Panics (panic_string
                     ("Log file creation failed. *shrug* Guess I'll die."
                        +:+ nl +:+ Error err)), w')
      end.
Proof.
  destruct (CreateLogFile_returns logdir env w) as ([f e] & w' & Hrun).
  exists f, e, w'. split; [exact Hrun |].
  unfold MustCreateLogFile. rewrite (bind_Ret _ _ _ _ _ _ Hrun).
  now destruct e.
Qed.

(** ** The legacy initializer, case by case *)

Lemma InitalizeLogger_run logdir env w :
  Legacy.InitalizeLogger logdir env w
  = if loggerInitted w then (Ret (Some ErrAlreadyInitalized), w)
    else if String.eqb logdir "" then
      (Ret None,
       set_loggerInitted true
         (set_logIDService (Some 0%nat)
            (set_logs (Some (Stream os_Stdout)) (Some (Stream os_Stdout))
                      (Some (Stream os_Stderr)) w)))
    else if MkdirAll_fails env logdir then
      (Ret (Some (PathError "mkdir" logdir)), w)
    else if Create_fails env (log_path logdir env) then
      (Ret (Some (PathError "open" (log_path logdir env))),
       set_created (created w ++ [logdir]) w)
    else
      (Ret None,
       set_loggerInitted true
         (set_logIDService (Some 0%nat)
            (set_logs
               (Some (multiWriter [Stream (os_File (log_path logdir env));
                                   Stream os_Stdout]))
               (Some (multiWriter [Stream (os_File (log_path logdir env));
                                   Stream os_Stdout]))
               (Some (multiWriter [Stream (os_File (log_path logdir env));
                                   Stream os_Stderr]))
               (set_created (created w ++ [logdir; log_path logdir env]) w)))).
Proof.
  unfold log_path. run_legacy.
  destruct (loggerInitted w); [reflexivity |].
  destruct (String.eqb logdir ""); cbn; [reflexivity |].
  destruct (MkdirAll_fails env logdir); cbn; [reflexivity |].
  destruct (Create_fails env _); cbn; [reflexivity |].
  unfold set_loggerInitted, set_logIDService, set_logs, set_created. cbn.
  now rewrite <- app_assoc.
Qed.

(** X22: a call of [InitalizeLogger] that returns an error has changed
    nothing but, at most, the directories made: the three writers, the
    initialized flag, the ID service and the streams are as before, so the
    call can be tried again. *)
Theorem InitalizeLogger_failure_changes_only_created logdir env w e w' :
  Legacy.InitalizeLogger logdir env w = (Ret (Some e), w') ->
  w' = set_created (created w') w.
Proof.
  rewrite InitalizeLogger_run.
  destruct (loggerInitted w); [intros [= _ <-]; now destruct w |].
  destruct (String.eqb logdir ""); [discriminate |].
  destruct (MkdirAll_fails env logdir); [intros [= _ <-]; now destruct w |].
  destruct (Create_fails env _); [| discriminate].
  now intros [= _ <-].
Qed.

Lemma InitalizeLogger_failure_changes_only_created_witness :
  (Legacy.InitalizeLogger "logs" env_no_create world0).2
  = set_created (created (Legacy.InitalizeLogger "logs" env_no_create world0).2)
      world0.
Proof.
  apply (InitalizeLogger_failure_changes_only_created "logs" env_no_create
           world0 (PathError "open" "logs/m03-d15-t142530.log")).
  reflexivity.
Defined.



(** X24: [InitalizeLogger] succeeds exactly when the system is not yet
    initialized and either no directory was asked for or both the directory
    and the file can be made. *)
Theorem InitalizeLogger_succeeds_iff logdir env w :
  (Legacy.InitalizeLogger logdir env w).1 = Ret None <->
  loggerInitted w = false /\
  (logdir = "" \/
   MkdirAll_fails env logdir = false /\
   Create_fails env (log_path logdir env) = false).
Proof.
  rewrite InitalizeLogger_run.
  destruct (loggerInitted w); [split; [discriminate | now intros [[=] _]] |].
  destruct (String.eqb_spec logdir "") as [-> | Hne].
  { split; [intros _; split; [reflexivity | now left] | reflexivity]. }
  destruct (MkdirAll_fails env logdir).
  { split; [discriminate | intros [_ [Hd | [[=] _]]]; contradiction]. }
  destruct (Create_fails env _).
  { split; [discriminate | intros [_ [Hd | [_ [=]]]]; contradiction]. }
  split; [intros _; split; [reflexivity | now right] | reflexivity].
Qed.

(** ** Legacy loggers *)

Lemma Legacy_newLogger_run prefix env w :
  LegacyLogger.newLogger prefix env w
  = (Ret (LegacyLogger.mkLogger
            (raw_log_New (infoLog w) ("INFO" +:+ prefix +:+ ": ") Config.flags)
            (raw_log_New (warnLog w) ("WARN" +:+ prefix +:+ ": ") Config.flags)
            (raw_log_New (errorLog w) (" ERR" +:+ prefix +:+ ": ") Config.flags)),
     w).
Proof. reflexivity. Qed.

Lemma raw_Println_multiWriter ss prefix flag msg env w :
  raw_Println (raw_log_New (Some (multiWriter (map Stream ss))) prefix flag)
              msg env w
  = match Write_each (prefix +:+ header env +:+ msg +:+ nl) (map Stream ss) env w
    with
    | (Ret _, w') => (Ret tt, w')
    | (Panics p, w') => (Panics p, w')
    | (Blocks, w') => (Blocks, w')
    end.
Proof.
  unfold raw_Println, Println, ask. cbn [rout rprefix rflag lout lprefix].
  unfold mbind at 1 2, M_bind at 1 2. rewrite Write_multiWriter.
  now destruct (Write_each _ _ env w) as [[r | p |] w'].
Qed.

(** X25: before [InitalizeLogger] has succeeded the three global writers are
    nil; [NewMasterLogger] still returns a logger, but logging through any
    of its channels panics on the nil writer, with nothing written. *)
Theorem Legacy_logger_before_init_panics env w :
  infoLog w = None -> warnLog w = None -> errorLog w = None ->
  exists L,
    LegacyLogger.NewMasterLogger env w = (Ret L, w) /\
    forall msg env' w',
      raw_Println (LegacyLogger.I L) msg env' w' = (Panics nil_dereference, w') /\
      raw_Println (LegacyLogger.W L) msg env' w' = (Panics nil_dereference, w') /\
      raw_Println (LegacyLogger.E L) msg env' w' = (Panics nil_dereference, w').
Proof.
  intros Hi Hw He. eexists. split.
  - unfold LegacyLogger.NewMasterLogger. apply Legacy_newLogger_run.
  - intros msg env' w'. cbn [LegacyLogger.I LegacyLogger.W LegacyLogger.E].
    unfold raw_Println. cbn [rout]. rewrite Hi, Hw, He. now repeat split.
Qed.

Lemma Legacy_logger_before_init_panics_witness :
  exists L,
    LegacyLogger.NewMasterLogger env0 world0 = (Ret L, world0) /\
    forall msg env' w',
      raw_Println (LegacyLogger.I L) msg env' w' = (Panics nil_dereference, w') /\
      raw_Println (LegacyLogger.W L) msg env' w' = (Panics nil_dereference, w') /\
      raw_Println (LegacyLogger.E L) msg env' w' = (Panics nil_dereference, w').
Proof.
  apply (Legacy_logger_before_init_panics env0 world0).
  - reflexivity.
  - reflexivity.
  - reflexivity.
Defined.

(** X26: after [InitalizeLogger] has succeeded with a log directory, and
    with the file and the standard streams taking their writes, a line
    logged through a master logger goes to the log file and then to the
    level's standard stream: standard output for Info and Warn, standard
    error for Err. *)
Theorem Legacy_logger_writes_file_and_console logdir env w w1 env' :
  Legacy.InitalizeLogger logdir env w = (Ret None, w1) ->
  String.eqb logdir "" = false ->
  broken env' (os_File (log_path logdir env)) = false ->
  broken env' os_Stdout = false ->
  broken env' os_Stderr = false ->
  exists L,
    LegacyLogger.NewMasterLogger env' w1 = (Ret L, w1) /\
    forall msg w',
      raw_Println (LegacyLogger.I L) msg env' w'
      = (Ret tt,
         set_out (out w' ++
                  chunk_on [os_File (log_path logdir env); os_Stdout]
                    ("INFO: " +:+ header env' +:+ msg +:+ nl)) w') /\
      raw_Println (LegacyLogger.W L) msg env' w'
      = (Ret tt,
         set_out (out w' ++
                  chunk_on [os_File (log_path logdir env); os_Stdout]
                    ("WARN: " +:+ header env' +:+ msg +:+ nl)) w') /\
      raw_Println (LegacyLogger.E L) msg env' w'
      = (Ret tt,
         set_out (out w' ++
                  chunk_on [os_File (log_path logdir env); os_Stderr]
                    (" ERR: " +:+ header env' +:+ msg +:+ nl)) w').
Proof.
  intros Hinit Hdir Hf Ho He.
  rewrite InitalizeLogger_run in Hinit.
  destruct (loggerInitted w); [discriminate |]. rewrite Hdir in Hinit.
  destruct (MkdirAll_fails env logdir); [discriminate |].
  destruct (Create_fails env _); [discriminate |].
  injection Hinit as <-.
  eexists. split.
  - unfold LegacyLogger.NewMasterLogger. apply Legacy_newLogger_run.
  - intros msg w'. cbn [LegacyLogger.I LegacyLogger.W LegacyLogger.E].
    cbn [infoLog warnLog errorLog set_loggerInitted set_logIDService set_logs].
    repeat split.
    + rewrite (raw_Println_multiWriter [os_File (log_path logdir env); os_Stdout]).
      rewrite Write_each_healthy; [reflexivity |].
      intros s [<- | [<- | []]]; assumption.
    + rewrite (raw_Println_multiWriter [os_File (log_path logdir env); os_Stdout]).
      rewrite Write_each_healthy; [reflexivity |].
      intros s [<- | [<- | []]]; assumption.
    + rewrite (raw_Println_multiWriter [os_File (log_path logdir env); os_Stderr]).
      rewrite Write_each_healthy; [reflexivity |].
      intros s [<- | [<- | []]]; assumption.
Qed.

Lemma Legacy_logger_writes_file_and_console_witness :
  exists L,
    LegacyLogger.NewMasterLogger env0
      (Legacy.InitalizeLogger "logs" env0 world0).2
    = (Ret L, (Legacy.InitalizeLogger "logs" env0 world0).2) /\
    forall msg w',
      raw_Println (LegacyLogger.I L) msg env0 w'
      = (Ret tt,
         set_out (out w' ++
                  chunk_on [os_File (log_path "logs" env0); os_Stdout]
                    ("INFO: " +:+ header env0 +:+ msg +:+ nl)) w') /\
      raw_Println (LegacyLogger.W L) msg env0 w'
      = (Ret tt,
         set_out (out w' ++
                  chunk_on [os_File (log_path "logs" env0); os_Stdout]
                    ("WARN: " +:+ header env0 +:+ msg +:+ nl)) w') /\
      raw_Println (LegacyLogger.E L) msg env0 w'
      = (Ret tt,
         set_out (out w' ++
                  chunk_on [os_File (log_path "logs" env0); os_Stderr]
                    (" ERR: " +:+ header env0 +:+ msg +:+ nl)) w').
Proof.
  apply (Legacy_logger_writes_file_and_console "logs" env0 world0
           (Legacy.InitalizeLogger "logs" env0 world0).2 env0).
  - reflexivity.
  - reflexivity.
  - reflexivity.
  - reflexivity.
  - reflexivity.
Defined.

Lemma first_stream_broken s ss p env w :
  broken env s = true ->
  Write_each p (map Stream (s :: ss)) env w
  = (Ret (0, Some (PathError "write" "stream")), w).
Proof.
  intros Hbad.
  pose proof (Write_each_broken [] s ss p env w
                (fun s' (F : In s' []) => match F with end) Hbad) as H.
  cbn [app] in H. rewrite H. unfold chunk_on. cbn [map].
  rewrite app_nil_r. now rewrite set_out_same.
Qed.

(** X27: the log file comes first in each fan-out, so when writes to it
    fail, a logged line reaches neither the file nor the console, at any of
    the three levels, and [Println] returns as if nothing were wrong. *)
Theorem Legacy_broken_file_silences_console logdir env w w1 env' :
  Legacy.InitalizeLogger logdir env w = (Ret None, w1) ->
  String.eqb logdir "" = false ->
  broken env' (os_File (log_path logdir env)) = true ->
  exists L,
    LegacyLogger.NewMasterLogger env' w1 = (Ret L, w1) /\
    forall msg w',
      raw_Println (LegacyLogger.I L) msg env' w' = (Ret tt, w') /\
      raw_Println (LegacyLogger.W L) msg env' w' = (Ret tt, w') /\
      raw_Println (LegacyLogger.E L) msg env' w' = (Ret tt, w').
Proof.
  intros Hinit Hdir Hf.
  rewrite InitalizeLogger_run in Hinit.
  destruct (loggerInitted w); [discriminate |]. rewrite Hdir in Hinit.
  destruct (MkdirAll_fails env logdir); [discriminate |].
  destruct (Create_fails env _); [discriminate |].
  injection Hinit as <-.
  eexists. split.
  - unfold LegacyLogger.NewMasterLogger. apply Legacy_newLogger_run.
  - intros msg w'. cbn [LegacyLogger.I LegacyLogger.W LegacyLogger.E].
    cbn [infoLog warnLog errorLog set_loggerInitted set_logIDService set_logs].
    repeat split.
    + rewrite (raw_Println_multiWriter [os_File (log_path logdir env); os_Stdout]).
      now rewrite (first_stream_broken _ [os_Stdout] _ env' w' Hf).
    + rewrite (raw_Println_multiWriter [os_File (log_path logdir env); os_Stdout]).
      now rewrite (first_stream_broken _ [os_Stdout] _ env' w' Hf).
    + rewrite (raw_Println_multiWriter [os_File (log_path logdir env); os_Stderr]).
      now rewrite (first_stream_broken _ [os_Stderr] _ env' w' Hf).
Qed.

Lemma Legacy_broken_file_silences_console_witness :
  exists L,
    LegacyLogger.NewMasterLogger env_broken_files
      (Legacy.InitalizeLogger "logs" env0 world0).2
    = (Ret L, (Legacy.InitalizeLogger "logs" env0 world0).2) /\
    forall msg w',
      raw_Println (LegacyLogger.I L) msg env_broken_files w' = (Ret tt, w') /\
      raw_Println (LegacyLogger.W L) msg env_broken_files w' = (Ret tt, w') /\
      raw_Println (LegacyLogger.E L) msg env_broken_files w' = (Ret tt, w').
Proof.
  apply (Legacy_broken_file_silences_console "logs" env0 world0
           (Legacy.InitalizeLogger "logs" env0 world0).2 env_broken_files).
  - reflexivity.
  - reflexivity.
  - reflexivity.
Defined.



(** X29: before [InitalizeLogger] has started the ID service, the legacy
    [NewSessionLogger] blocks for ever on the nil channel. *)
Theorem Legacy_NewSessionLogger_blocks_before_init endpoint env w :
  logIDService w = None ->
  LegacyLogger.NewSessionLogger endpoint env w = (Blocks, w).
Proof.
  intros H. unfold LegacyLogger.NewSessionLogger, mbind, M_bind.
  unfold recv_logIDService. now rewrite H.
Qed.

Lemma Legacy_NewSessionLogger_blocks_before_init_witness :
  LegacyLogger.NewSessionLogger "foo" env0 world0 = (Blocks, world0).
Proof.
  apply (Legacy_NewSessionLogger_blocks_before_init "foo" env0 world0).
  reflexivity.
Defined.
